(** * Quantum-noise V2V signalling (head.py): a shallow embedding

    The development follows the layout of [head.py]:
    - binary64 numbers, as Python's [float];
    - the signal codec, [encode_message] and [decode_message];
    - the optical channel, a FIFO queue shared by all vehicles;
    - the vehicle: sensors, receiver, dispatcher and broadcast.

    Python built-ins and library calls the program relies on ([str],
    [round], [ast.literal_eval], [random.uniform], [random.gauss],
    [time.time], the formatting of f-string fields and [print]) are not
    code of the repository: they are gathered in a [Runtime] record, and
    every statement holds for all runtimes unless it names the contract it
    needs. *)

From Stdlib Require Import String Ascii Bool ZArith NArith Arith Lia List.
From Stdlib Require Import Floats.SpecFloat.
Import ListNotations.

Set Implicit Arguments.

(* ===================================================================== *)
(** ** Python floats: IEEE 754 binary64 *)
(* ===================================================================== *)

Definition float := spec_float.

Definition prec : Z := 53.
Definition emax : Z := 1024.

Definition fadd : float -> float -> float := SFadd prec emax.
Definition fmul : float -> float -> float := SFmul prec emax.
Definition fabs : float -> float := SFabs.
(** [a < b] and [a <= b] on floats; both are false when an operand is NaN. *)
Definition flt : float -> float -> bool := SFltb.
Definition fle : float -> float -> bool := SFleb.

(** The literals of the program, as (sign, mantissa, exponent). *)
Definition f_zero : float := S754_zero false.                               (* 0, 0.0 *)
Definition f_0_1 : float := S754_finite false 7205759403792794 (-56).       (* 0.1 *)
Definition f_0_2 : float := S754_finite false 7205759403792794 (-55).       (* 0.2 *)
Definition f_0_5 : float := S754_finite false 4503599627370496 (-53).       (* 0.5 *)
Definition f_neg_0_5 : float := S754_finite true 4503599627370496 (-53).    (* -0.5 *)
Definition f_1 : float := S754_finite false 4503599627370496 (-52).         (* 1 *)
Definition f_1_5 : float := S754_finite false 6755399441055744 (-52).       (* 1.5 *)
Definition f_3 : float := S754_finite false 6755399441055744 (-51).         (* 3 *)
Definition f_neg_8 : float := S754_finite true 4503599627370496 (-49).      (* -8.0 *)
Definition f_25 : float := S754_finite false 7036874417766400 (-48).        (* 25.0 *)

(** [max(0, x)]: Python keeps the first argument unless a later one is
    strictly greater, so the result is [x] when [0 < x] and [0] otherwise
    (also when [x] is NaN).  The integer [0] is represented by the float
    zero, to which it is equal and with which it computes alike. *)
Definition py_max0 (x : float) : float := if flt f_zero x then x else f_zero.

(* ===================================================================== *)
(** ** Python values *)
(* ===================================================================== *)

(** A Python [str] is a sequence of Unicode code points. *)
Definition pystr := list N.

Definition codes (s : string) : pystr := map N_of_ascii (list_ascii_of_string s).

Definition pystr_eqb (a b : pystr) : bool :=
  if list_eq_dec N.eq_dec a b then true else false.

(** The values [ast.literal_eval] can build, as far as the program looks at
    them.  A dict is kept as its items in insertion order; the program only
    looks up [str] keys, so only those are kept.  Keys are unique in a
    Python dict; a lookup takes the first item with the key. *)
#[warnings="-register-all"]
Inductive pyval :=
| PyNone
| PyBool (b : bool)
| PyInt (z : Z)
| PyFloat (f : float)
| PyStr (s : pystr)
| PyList (l : list pyval)
| PyDict (items : list (pystr * pyval)).

Definition pydict := list (pystr * pyval).

Inductive exn :=
| KeyError (key : pystr)
| ValueError
| SyntaxError
| UnicodeEncodeError
| OtherError (what : pystr).

Inductive result (A : Type) :=
| Ok (a : A)
| Raise (e : exn).
Arguments Ok {A} a.
Arguments Raise {A} e.

(** [d.get(k)]: the value, or [None] (here the option's) when absent. *)
Fixpoint dict_get (d : pydict) (k : pystr) : option pyval :=
  match d with
  | [] => None
  | (k', v) :: d' => if pystr_eqb k' k then Some v else dict_get d' k
  end.

(** [d[k]]: raises [KeyError] when the key is absent. *)
Definition subscript (d : pydict) (k : pystr) : result pyval :=
  match dict_get d k with
  | Some v => Ok v
  | None => Raise (KeyError k)
  end.

(** [d.get(k) == s] for a string literal [s]. *)
Definition get_equals (d : pydict) (k s : pystr) : bool :=
  match dict_get d k with
  | Some (PyStr t) => pystr_eqb t s
  | _ => false
  end.

(** A line written by [print]: the receiver's name and the values put
    into the f-string. *)
Inductive line :=
| StatusLine (adas : pystr) (sender speed_mps : pyval)
| BrakeLine (adas : pystr) (sender : pyval).

(** What the program asks of Python and its libraries.  The random and
    clock functions are oracles: the last argument counts the draws made
    so far.  Putting a value into an f-string can raise (an int of more
    than 4300 digits: [ValueError]) and so can writing the line to
    [sys.stdout] (a string with a lone surrogate: [UnicodeEncodeError]);
    which values and lines do is the runtime's. *)
Record Runtime := {
  py_str : pyval -> pystr;                          (* str(x) *)
  py_round : float -> Z -> float;                   (* round(x, ndigits) *)
  literal_eval : pystr -> result pyval;             (* ast.literal_eval *)
  random_uniform : float -> float -> nat -> float;  (* random.uniform(a, b) *)
  random_gauss : float -> float -> nat -> float;    (* random.gauss(mu, sigma) *)
  time_time : nat -> float;                         (* time.time() *)
  py_format : pyval -> result pystr;                (* "{x}" in an f-string *)
  py_print : line -> result unit                    (* print(...) *)
}.

(* ===================================================================== *)
(** ** STEP 2: the signal codec *)
(* ===================================================================== *)

Definition signal := list float.

(** [format(n, "08b")]: the binary digits of [n], most significant first,
    padded with zeros on the left to a width of at least 8; a code point
    above 255 takes more than 8 digits. *)
Definition format_08b (n : N) : list bool :=
  map (fun i => N.testbit n (N.of_nat i))
      (rev (seq 0 (Nat.max 8 (N.to_nat (N.size n))))).

(** ["".join(format(ord(c), "08b") for c in text)] *)
Definition message_bits (text : pystr) : list bool :=
  flat_map format_08b text.

(** The loop of [encode_message]: two Gaussian draws per bit. *)
Fixpoint emit (rt : Runtime) (bits : list bool) (tick : nat) : signal * nat :=
  match bits with
  | [] => ([], tick)
  | b :: bits' =>
      let base := random_gauss rt f_zero f_1 tick in
      let spread := random_gauss rt f_zero (if b then f_3 else f_0_2) (S tick) in
      let (rest, tick') := emit rt bits' (S (S tick)) in
      (fadd base spread :: rest, tick')
  end.

Definition encode_message (rt : Runtime) (msg : pyval) (tick : nat) : signal * nat :=
  emit rt (message_bits (py_str rt msg)) tick.

(** ["1" if abs(val) > 1.5 else "0"] *)
Definition classify (val : float) : bool := flt f_1_5 (fabs val).

Definition signal_bits (sig : signal) : list bool := map classify sig.

(** [range(0, n, 8)] *)
Definition range8 (n : nat) : list nat :=
  map (fun k => 8 * k) (seq 0 ((n + 7) / 8)).

(** [bits[i:i+8]] *)
Definition slice8 (bits : list bool) (i : nat) : list bool :=
  firstn 8 (skipn i bits).

(** [chars = [bits[i:i+8] for i in range(0, len(bits), 8)]] *)
Definition chunks (bits : list bool) : list (list bool) :=
  map (slice8 bits) (range8 (length bits)).

(** [int(c, 2)] on a string of binary digits. *)
Definition int_base2 (c : list bool) : N :=
  fold_left (fun acc b => 2 * acc + N.b2n b)%N c 0%N.

(** [chr(n)]: raises [ValueError] outside [range(0x110000)]. *)
Definition py_chr (n : N) : result N :=
  if (n <? 1114112)%N then Ok n else Raise ValueError.

(** ["".join(f(c) for c in cs)], stopping at the first exception. *)
Fixpoint join_chars (f : list bool -> result N) (cs : list (list bool)) : result pystr :=
  match cs with
  | [] => Ok []
  | c :: cs' =>
      match f c with
      | Raise e => Raise e
      | Ok ch =>
          match join_chars f cs' with
          | Raise e => Raise e
          | Ok s => Ok (ch :: s)
          end
      end
  end.

Definition complete (c : list bool) : bool := length c =? 8.

(** [c for c in chars if len(c) == 8] *)
Definition groups (bits : list bool) : list (list bool) :=
  filter complete (chunks bits).

(** The body of the [try] in [decode_message], for a given [chr]. *)
Definition decode_try (chr : N -> result N) (sig : signal) : result pystr :=
  join_chars (fun c => chr (int_base2 c)) (groups (signal_bits sig)).

(** [decode_message] for a given [chr]: the bare [except] returns [""]. *)
Definition decode_with (chr : N -> result N) (sig : signal) : pystr :=
  match decode_try chr sig with
  | Ok s => s
  | Raise _ => []
  end.

Definition decode_message (sig : signal) : pystr := decode_with py_chr sig.

(* ===================================================================== *)
(** ** STEP 1: the sensors *)
(* ===================================================================== *)

Record VehicleSensors := {
  sensors_name : pystr;
  speed : float;      (* m/s *)
  accel : float;
  braking : bool;
  hazard : pystr
}.

Definition VehicleSensors_init (name : pystr) : VehicleSensors :=
  {| sensors_name := name; speed := f_25; accel := f_zero;
     braking := false; hazard := [] |}.

(** [update(brake)]; the second component counts the oracle draws. *)
Definition update (rt : Runtime) (brake : bool) (s : VehicleSensors) (tick : nat)
  : VehicleSensors * nat :=
  let '(a, b, tick') :=
    if brake
    then (f_neg_8, true, tick)       (* emergency braking deceleration *)
    else (random_uniform rt f_neg_0_5 f_0_5 tick, false, S tick) in
  ({| sensors_name := sensors_name s;
      speed := py_max0 (fadd (speed s) (fmul a f_0_1));
      accel := a;
      braking := b;
      hazard := hazard s |}, tick').

(** [round(self.speed, 2)].  The speed is 25.0 at first and then what
    [max(0, ...)] returned: a float above zero, or the int [0], which the
    model keeps as the float zero (a float 0.0 is never stored there).
    [round] of the int [0] is the int [0]; of a float, a float. *)
Definition round_speed (rt : Runtime) (x : float) : pyval :=
  match x with
  | S754_zero false => PyInt 0
  | _ => PyFloat (py_round rt x 2)
  end.

(** [read_data()]: the STATUS dict, keys in the order of the literal. *)
Definition read_data (rt : Runtime) (s : VehicleSensors) (tick : nat) : pydict * nat :=
  ([ (codes "from", PyStr (sensors_name s));
     (codes "timestamp", PyFloat (time_time rt tick));
     (codes "speed_mps", round_speed rt (speed s));
     (codes "accel_mps2", PyFloat (py_round rt (accel s) 2));
     (codes "braking", PyBool (braking s));
     (codes "hazard", PyStr (hazard s));
     (codes "type", PyStr (codes "STATUS")) ], S tick).

(* ===================================================================== *)
(** ** STEP 3 & 4: the optical channel *)
(* ===================================================================== *)

(** [queue.Queue()]: an unbounded FIFO whose [put] and [get] are atomic. *)
Record OpticalChannel := { q : list signal }.

Definition OpticalChannel_init : OpticalChannel := {| q := [] |}.

Definition transmit (ch : OpticalChannel) (encoded_msg : signal) : OpticalChannel :=
  {| q := q ch ++ [encoded_msg] |}.

(** [receive()]: the oldest pending signal, or [None] once the wait of
    0.1 s has run out on an empty queue. *)
Definition receive (ch : OpticalChannel) : option signal * OpticalChannel :=
  match q ch with
  | [] => (None, ch)
  | s :: rest => (Some s, {| q := rest |})
  end.

(** Calls on the shared channel, as the threads of the listeners and the
    driver issue them.  The queue's lock makes each [put] and [get] atomic,
    so a concurrent run is some serial order of the calls; a [Receive]
    stands where its [get] returns, with a signal or after the timeout. *)
Inductive call :=
| Transmit (encoded_msg : signal)
| Receive (listener : nat).

(** Runs the calls in the given order; returns what each [Receive] got. *)
Fixpoint run_calls (cs : list call) (ch : OpticalChannel)
  : list (nat * option signal) * OpticalChannel :=
  match cs with
  | [] => ([], ch)
  | Transmit s :: cs' => run_calls cs' (transmit ch s)
  | Receive l :: cs' =>
      let (got, ch') := receive ch in
      let (rest, ch'') := run_calls cs' ch' in
      ((l, got) :: rest, ch'')
  end.



(* ===================================================================== *)
(** ** STEP 5 & 6: receiver and vehicle *)
(* ===================================================================== *)

(** Vehicles are objects in a store, named by their index.  A receiver
    keeps the index of its vehicle ([vehicle_ref]); all vehicles share the
    one channel. *)
Record VehicleReceiver := {
  receiver_name : pystr;
  vehicle : nat
}.

Record Vehicle := {
  name : pystr;
  sensors : VehicleSensors;
  receiver : VehicleReceiver
}.

(** [Vehicle(name, channel)] for the object stored at index [self]. *)
Definition Vehicle_init (self : nat) (nm : pystr) : Vehicle :=
  {| name := nm;
     sensors := VehicleSensors_init nm;
     receiver := {| receiver_name := nm; vehicle := self |} |}.

Record World := {
  cars : nat -> Vehicle;
  channel : OpticalChannel;
  draws : nat;              (* oracle draws made so far *)
  stdout : list line
}.

(** Computations that change the world and may raise; what was changed
    before an exception stays changed. *)
Definition M (A : Type) := World -> result A * World.

Definition ret {A} (a : A) : M A := fun w => (Ok a, w).

Definition bind {A B} (c : M A) (k : A -> M B) : M B :=
  fun w => match c w with
           | (Ok a, w') => k a w'
           | (Raise e, w') => (Raise e, w')
           end.

Definition lift {A} (r : result A) : M A := fun w => (r, w).

(** [try: c  except: h] with a bare [except]. *)
Definition try_except {A} (c : M A) (h : M A) : M A :=
  fun w => match c w with
           | (Ok a, w') => (Ok a, w')
           | (Raise _, w') => h w'
           end.

Notation "x <- c ;; k" := (bind c (fun x => k))
  (at level 61, c at next level, right associativity).
Notation "c ;; k" := (bind c (fun _ => k))
  (at level 61, right associativity).

(** The world with one more line on its output. *)
Definition logged (l : line) (w : World) : World :=
  {| cars := cars w; channel := channel w;
     draws := draws w; stdout := stdout w ++ [l] |}.

(** [print(line)]: the line is written, or the call raises and nothing
    is written. *)
Definition print (rt : Runtime) (l : line) : M unit :=
  fun w => match py_print rt l with
           | Ok _ => (Ok tt, logged l w)
           | Raise e => (Raise e, w)
           end.

(** A replacement field [{v}] of an f-string: the value is formatted as
    soon as it is computed, before the next field is looked at. *)
Definition format_field (rt : Runtime) (v : pyval) : M unit :=
  fun w => match py_format rt v with
           | Ok _ => (Ok tt, w)
           | Raise e => (Raise e, w)
           end.

Definition set_sensors (self : nat) (s : VehicleSensors) (w : World) : nat -> Vehicle :=
  fun i => if i =? self
           then {| name := name (cars w self); sensors := s;
                   receiver := receiver (cars w self) |}
           else cars w i.

(** [{"from": self.name, "type": "EMERGENCY_BRAKE"}] *)
Definition brake_msg (nm : pystr) : pydict :=
  [ (codes "from", PyStr nm); (codes "type", PyStr (codes "EMERGENCY_BRAKE")) ].

(** [Vehicle.broadcast(brake)] of the vehicle at index [self]. *)
Definition broadcast (rt : Runtime) (self : nat) (brake : bool) : M unit :=
  fun w =>
    let (s', t1) := update rt brake (sensors (cars w self)) (draws w) in
    let (status, t2) := read_data rt s' t1 in
    let msg := if brake then brake_msg (name (cars w self)) else status in
    let (encoded, t3) := encode_message rt (PyDict msg) t2 in
    (Ok tt, {| cars := set_sensors self s' w;
               channel := transmit (channel w) encoded;
               draws := t3;
               stdout := stdout w |}).

(** Called when ADAS decides to brake automatically. *)
Definition emergency_brake (rt : Runtime) (self : nat) : M unit :=
  broadcast rt self true.

(** [VehicleReceiver.process_message(msg)].  Each f-string is built
    field by field ([self.name] is a string and formats as itself), then
    printed; in the second branch [emergency_brake] comes after the
    [print], so it is reached only when the line was built and written. *)
Definition process_message (rt : Runtime) (r : VehicleReceiver) (msg : pydict) : M unit :=
  (if get_equals msg (codes "type") (codes "STATUS")
   then sender <- lift (subscript msg (codes "from")) ;;
        format_field rt sender ;;
        sp <- lift (subscript msg (codes "speed_mps")) ;;
        format_field rt sp ;;
        print rt (StatusLine (receiver_name r) sender sp)
   else ret tt) ;;
  (if get_equals msg (codes "type") (codes "EMERGENCY_BRAKE")
   then sender <- lift (subscript msg (codes "from")) ;;
        format_field rt sender ;;
        print rt (BrakeLine (receiver_name r) sender) ;;
        emergency_brake rt (vehicle r)     (* propagate braking *)
   else ret tt).

Definition channel_receive : M (option signal) :=
  fun w => let (got, ch) := receive (channel w) in
           (Ok got, {| cars := cars w; channel := ch;
                       draws := draws w; stdout := stdout w |}).

(** [if decoded:] a string is true when it is not empty. *)
Definition truthy (s : pystr) : bool :=
  match s with [] => false | _ => true end.

(** One pass through the body of [while True] in [listen]; it returns when
    the body reaches its end or a [continue]. *)
Definition listen_step (rt : Runtime) (r : VehicleReceiver) : M unit :=
  sig <- channel_receive ;;
  match sig with
  | None => ret tt
  | Some s =>
      let decoded := decode_message s in
      if truthy decoded
      then try_except
             (msg <- lift (literal_eval rt decoded) ;;
              match msg with
              | PyDict d => process_message rt r d
              | _ => ret tt
              end)
             (ret tt)
      else ret tt
  end.

(** [listen], cut after [n] passes: the number of passes made, or the
    exception that ended the loop. *)
Fixpoint listen (rt : Runtime) (r : VehicleReceiver) (n : nat) : M nat :=
  match n with
  | 0 => ret 0
  | S n' => listen_step rt r ;; k <- listen rt r n' ;; ret (S k)
  end.

(** The call returned. *)
Definition succeeds {A : Type} (r : result A) : bool :=
  match r with
  | Ok _ => true
  | Raise _ => false
  end.



(** The computation ended with an exception. *)
Definition raises {A : Type} (r : result A) : Prop := exists e, r = Raise e.

(** Printable ASCII: the code points 32 to 126. *)
Definition printable (c : N) : bool := ((32 <=? c) && (c <=? 126))%N.

(** [lo <= x <= hi] *)
Definition in_range (lo hi x : float) : bool := fle lo x && fle x hi.

(** The states of the sensors after each of a sequence of [update] calls. *)
Fixpoint update_trace (rt : Runtime) (brakes : list bool) (s : VehicleSensors) (tick : nat)
  : list VehicleSensors :=
  match brakes with
  | [] => []
  | b :: brakes' =>
      let (s', tick') := update rt b s tick in
      s' :: update_trace rt brakes' s' tick'
  end.

(* ===================================================================== *)
(** ** A deterministic runtime, for examples *)
(* ===================================================================== *)

(** [repr] of a string that needs no escapes. *)
Definition quote (s : pystr) : pystr := (39 :: s ++ [39])%N.

Definition test_repr (v : pyval) : pystr :=
  match v with
  | PyStr s => quote s
  | PyBool true => codes "True"
  | PyBool false => codes "False"
  | _ => codes "None"
  end.

Fixpoint test_items (d : pydict) : pystr :=
  match d with
  | [] => []
  | (k, v) :: d' =>
      quote k ++ codes ": " ++ test_repr v ++
      match d' with
      | [] => []
      | _ => codes ", " ++ test_items d'
      end
  end.

Definition test_str (v : pyval) : pystr :=
  match v with
  | PyDict d => codes "{" ++ test_items d ++ codes "}"
  | PyStr s => s
  | _ => test_repr v
  end.

(** Reads up to the closing quote. *)
Fixpoint read_quoted (s : pystr) : option (pystr * pystr) :=
  match s with
  | [] => None
  | c :: s' =>
      if (c =? 39)%N then Some ([], s')
      else match read_quoted s' with
           | Some (a, rest) => Some (c :: a, rest)
           | None => None
           end
  end.

(** Reads ['key': 'value'] items up to the closing brace. *)
Fixpoint parse_items (fuel : nat) (s : pystr) : option pydict :=
  match fuel, s with
  | S fuel', (39 :: s1)%N =>
      match read_quoted s1 with
      | Some (k, (58 :: 32 :: 39 :: s2)%N) =>
          match read_quoted s2 with
          | Some (v, [125%N]) => Some [(k, PyStr v)]
          | Some (v, (44 :: 32 :: s3)%N) =>
              match parse_items fuel' s3 with
              | Some d => Some ((k, PyStr v) :: d)
              | None => None
              end
          | _ => None
          end
      | _ => None
      end
  | _, _ => None
  end.

(** Parses a dict of strings; anything else is a syntax error. *)
Definition test_literal_eval (s : pystr) : result pyval :=
  match s with
  | (123 :: s')%N =>
      match parse_items (length s') s' with
      | Some d => Ok (PyDict d)
      | None => Raise SyntaxError
      end
  | _ => Raise SyntaxError
  end.

(** UTF-8 cannot encode a surrogate (code points D800 to DFFF). *)
Definition encodable (s : pystr) : bool :=
  forallb (fun c => (c <? 55296) || (57343 <? c))%N s.

Definition value_encodable (v : pyval) : bool :=
  match v with
  | PyStr s => encodable s
  | _ => true
  end.

(** [print] to a UTF-8 terminal. *)
Definition utf8_print (l : line) : result unit :=
  let ok := match l with
            | StatusLine adas sender sp =>
                encodable adas && value_encodable sender && value_encodable sp
            | BrakeLine adas sender => encodable adas && value_encodable sender
            end in
  if ok then Ok tt else Raise UnicodeEncodeError.

(** An f-string field written with [str]: an int of more than 4300
    digits is refused. *)
Definition format_with (str : pyval -> pystr) (v : pyval) : result pystr :=
  match v with
  | PyInt z => if (Z.abs z <? 10 ^ 4300)%Z then Ok (str v) else Raise ValueError
  | _ => Ok (str v)
  end.

(** Draws are one standard deviation above the mean; [uniform] returns its
    lower bound; the clock stands still. *)
Definition test_rt : Runtime :=
  {| py_str := test_str;
     py_round := fun x _ => x;
     literal_eval := test_literal_eval;
     random_uniform := fun a _ _ => a;
     random_gauss := fun mu sigma _ => fadd mu sigma;
     time_time := fun _ => f_zero;
     py_format := format_with test_str;
     py_print := utf8_print |}.

Definition test_world : World :=
  {| cars := fun i => Vehicle_init i (codes "Car" ++ [N.of_nat (65 + i)]);
     channel := OpticalChannel_init;
     draws := 0;
     stdout := [] |}.

(* ===================================================================== *)
(** ** Threads: the driver and the listeners, interleaved *)
(* ===================================================================== *)

(** What a thread does between two switches: the driver calls
    [broadcast] on a vehicle, or the listener thread that [start] made for
    a vehicle ([self.receiver.listen]) goes once through its loop body. *)
Inductive action :=
| Drive (self : nat) (brake : bool)
| Hear (self : nat).

Definition step (rt : Runtime) (a : action) : M unit :=
  match a with
  | Drive self brake => broadcast rt self brake
  | Hear self => fun w => listen_step rt (receiver (cars w self)) w
  end.

Fixpoint run_schedule (rt : Runtime) (acts : list action) : M unit :=
  match acts with
  | [] => ret tt
  | a :: acts' => step rt a ;; run_schedule rt acts'
  end.

(** The number of [Drive] actions of a schedule. *)
Fixpoint drives (acts : list action) : nat :=
  match acts with
  | [] => 0
  | Drive _ _ :: acts' => S (drives acts')
  | Hear _ :: acts' => drives acts'
  end.

(** [n] calls of [update(brake=True)] in a row. *)
Fixpoint brake_n (rt : Runtime) (n : nat) (s : VehicleSensors) (tick : nat) : VehicleSensors :=
  match n with
  | 0 => s
  | S n' => let (s', tick') := update rt true s tick in brake_n rt n' s' tick'
  end.

(** *** A runtime that writes and reads numbers *)

(** The decimal digits of [n]. *)
Fixpoint decimal_fuel (fuel : nat) (n : N) (acc : pystr) : pystr :=
  match fuel with
  | 0 => acc
  | S fuel' =>
      let acc' := (48 + n mod 10)%N :: acc in
      if (n / 10 =? 0)%N then acc' else decimal_fuel fuel' (n / 10)%N acc'
  end.

Definition decimal (n : N) : pystr :=
  decimal_fuel (S (N.to_nat (N.log2 n))) n [].

(** The float nearest to an integer. *)
Definition float_of_Z (z : Z) : float := binary_normalize prec emax z 0 false.

Definition sign_of (x : float) : bool :=
  match x with
  | S754_zero s => s
  | S754_infinity s => s
  | S754_finite s _ _ => s
  | S754_nan => false
  end.

(** [x * 10^k] rounded to the nearest integer, ties to even. *)
Definition scaled (x : float) (k : Z) : option Z :=
  match x with
  | S754_zero _ => Some 0%Z
  | S754_finite s m e =>
      let n := (10 ^ k * Zpos m)%Z in
      let a :=
        if (0 <=? e)%Z then (n * 2 ^ e)%Z
        else
          let d := (2 ^ (- e))%Z in
          let qd := (n / d)%Z in
          let r := (n mod d)%Z in
          if (2 * r <? d)%Z then qd
          else if (d <? 2 * r)%Z then (qd + 1)%Z
          else if Z.even qd then qd else (qd + 1)%Z in
      Some (if s then (- a)%Z else a)
  | _ => None
  end.

(** [round(x, ndigits)] for [ndigits >= 0]: the float nearest to the
    decimal that is nearest to [x]. *)
Definition round_digits (x : float) (ndigits : Z) : float :=
  match scaled x ndigits with
  | Some n =>
      if (n =? 0)%Z then S754_zero (sign_of x)
      else SFdiv prec emax (float_of_Z n) (float_of_Z (10 ^ ndigits))
  | None => x
  end.

(** [repr] of a float that is the nearest to a decimal of at most two
    places and below 10^15; the examples write no other. *)
Definition float_repr (x : float) : pystr :=
  match scaled x 2 with
  | Some n =>
      if SFeqb x (round_digits x 2) && (Z.abs n <? 10 ^ 17)%Z
      then
        let a := Z.abs_N n in
        let frac := (a mod 100)%N in
        (if sign_of x then [45%N] else [])
        ++ decimal (a / 100) ++ [46%N]
        ++ (if (frac mod 10 =? 0)%N then decimal (frac / 10)
            else [(48 + frac / 10)%N; (48 + frac mod 10)%N])
      else codes "nan"
  | None => codes "nan"
  end.

Definition value_repr (v : pyval) : pystr :=
  match v with
  | PyStr s => quote s
  | PyBool true => codes "True"
  | PyBool false => codes "False"
  | PyInt z => (if (z <? 0)%Z then [45%N] else []) ++ decimal (Z.abs_N z)
  | PyFloat x => float_repr x
  | _ => codes "None"
  end.

Fixpoint dict_items_repr (d : pydict) : pystr :=
  match d with
  | [] => []
  | (k, v) :: d' =>
      quote k ++ codes ": " ++ value_repr v ++
      match d' with
      | [] => []
      | _ => codes ", " ++ dict_items_repr d'
      end
  end.

Definition value_str (v : pyval) : pystr :=
  match v with
  | PyDict d => codes "{" ++ dict_items_repr d ++ codes "}"
  | PyStr s => s
  | _ => value_repr v
  end.

Fixpoint read_digits (s : pystr) (acc : N) (count : nat) : N * nat * pystr :=
  match s with
  | c :: s' =>
      if ((48 <=? c) && (c <=? 57))%N
      then read_digits s' (10 * acc + (c - 48))%N (S count)
      else (acc, count, s)
  | [] => (acc, count, s)
  end.

(** An int, or a float written with a decimal point. *)
Definition read_number (s : pystr) : option (pyval * pystr) :=
  let (neg, s1) := match s with
                   | 45%N :: s' => (true, s')
                   | _ => (false, s)
                   end in
  let '(a, na, s2) := read_digits s1 0%N 0 in
  match na, s2 with
  | 0, _ => None
  | _, 46%N :: s3 =>
      let '(b, nb, s4) := read_digits s3 0%N 0 in
      match nb with
      | 0 => None
      | _ =>
          let x := SFdiv prec emax
                     (float_of_Z (Z.of_N (a * 10 ^ N.of_nat nb + b)))
                     (float_of_Z (10 ^ Z.of_nat nb)) in
          Some (PyFloat (if neg then SFopp x else x), s4)
      end
  | _, _ => Some (PyInt (if neg then (- Z.of_N a)%Z else Z.of_N a), s2)
  end.

Fixpoint strip_prefix (p s : pystr) : option pystr :=
  match p, s with
  | [], _ => Some s
  | c :: p', d :: s' => if (c =? d)%N then strip_prefix p' s' else None
  | _ :: _, [] => None
  end.

Definition read_value (s : pystr) : option (pyval * pystr) :=
  match s with
  | 39%N :: s1 =>
      match read_quoted s1 with
      | Some (v, rest) => Some (PyStr v, rest)
      | None => None
      end
  | _ =>
      match strip_prefix (codes "True") s with
      | Some rest => Some (PyBool true, rest)
      | None =>
          match strip_prefix (codes "False") s with
          | Some rest => Some (PyBool false, rest)
          | None =>
              match strip_prefix (codes "None") s with
              | Some rest => Some (PyNone, rest)
              | None => read_number s
              end
          end
      end
  end.

(** Reads ['key': value] items up to the closing brace. *)
Fixpoint read_items (fuel : nat) (s : pystr) : option pydict :=
  match fuel, s with
  | S fuel', (39 :: s1)%N =>
      match read_quoted s1 with
      | Some (k, (58 :: 32 :: s2)%N) =>
          match read_value s2 with
          | Some (v, [125%N]) => Some [(k, v)]
          | Some (v, (44 :: 32 :: s3)%N) =>
              match read_items fuel' s3 with
              | Some d => Some ((k, v) :: d)
              | None => None
              end
          | _ => None
          end
      | _ => None
      end
  | _, _ => None
  end.

(** Parses a dict of strings, booleans, [None], ints and floats. *)
Definition read_dict (s : pystr) : result pyval :=
  match s with
  | (123 :: s')%N =>
      match read_items (length s') s' with
      | Some d => Ok (PyDict d)
      | None => Raise SyntaxError
      end
  | _ => Raise SyntaxError
  end.

(** As [test_rt], with numbers written, read and rounded as Python does
    for decimals of two places. *)
Definition convoy_rt : Runtime :=
  {| py_str := value_str;
     py_round := round_digits;
     literal_eval := read_dict;
     random_uniform := fun a _ _ => a;
     random_gauss := fun mu sigma _ => fadd mu sigma;
     time_time := fun _ => f_zero;
     py_format := format_with value_str;
     py_print := utf8_print |}.


(** The vehicle a thread's action works for. *)
Definition actor (a : action) : nat :=
  match a with
  | Drive self _ => self
  | Hear self => self
  end.

(** Every receiver refers to the vehicle that holds it, as [Vehicle.__init__]
    sets it up. *)
Definition wired (w : World) : Prop :=
  forall i, vehicle (receiver (cars w i)) = i.

(** Between two worlds no vehicle has changed its name, its receiver, the
    name of its sensors or its hazard text. *)
Definition identity_kept (w w' : World) : Prop :=
  forall i,
    name (cars w' i) = name (cars w i)
    /\ receiver (cars w' i) = receiver (cars w i)
    /\ sensors_name (sensors (cars w' i)) = sensors_name (sensors (cars w i))
    /\ hazard (sensors (cars w' i)) = hazard (sensors (cars w i)).

Definition speeds_nonneg (w : World) : Prop :=
  forall i, fle f_zero (speed (sensors (cars w i))) = true.

(* ===================================================================== *)
(** * Properties *)
(* ===================================================================== *)

(** ** Sensors *)

Section Sensors.

Variable rt : Runtime.

Lemma flt_fle (a b : float) : flt a b = true -> fle a b = true.
Proof.
  unfold flt, fle, SFltb, SFleb.
  destruct (SFcompare a b) as [[ | | ] | ]; intros H; try discriminate H; reflexivity.
Qed.

(** The clamp [max(0, x)] is never below zero, whatever [x] is. *)
Lemma py_max0_nonneg (x : float) : fle f_zero (py_max0 x) = true.
Proof.
  unfold py_max0.
  destruct (flt f_zero x) eqn:E.
  - apply flt_fle, E.
  - reflexivity.
Qed.

Lemma update_speed (brake : bool) (s : VehicleSensors) (tick : nat) :
  speed (fst (update rt brake s tick))
  = py_max0 (fadd (speed s) (fmul (accel (fst (update rt brake s tick))) f_0_1)).
Proof. destruct brake; reflexivity. Qed.

Lemma update_trace_nonneg (brakes : list bool) :
  forall (s : VehicleSensors) (tick : nat),
    Forall (fun s' => fle f_zero (speed s') = true) (update_trace rt brakes s tick).
Proof.
  induction brakes as [ | b brakes IH]; intros s tick; simpl.
  - constructor.
  - destruct (update rt b s tick) as [s' tick'] eqn:E.
    constructor.
    + change s' with (fst (s', tick')). rewrite <- E, update_speed.
      apply py_max0_nonneg.
    + apply IH.
Qed.

(** C3. Starting from sensors whose speed is at least zero, the speed is
    at least zero before and after every call of any finite sequence of
    [update] calls, for any brake arguments and any drawn accelerations
    (any runtime): each call stores [max(0, speed + accel * 0.1)]. *)
Theorem speed_never_negative (s : VehicleSensors) (tick : nat) (brakes : list bool) :
  fle f_zero (speed s) = true ->
  Forall (fun s' => fle f_zero (speed s') = true) (s :: update_trace rt brakes s tick)
  /\ (forall brake, speed (fst (update rt brake s tick))
                    = py_max0 (fadd (speed s)
                                    (fmul (accel (fst (update rt brake s tick))) f_0_1))).
Proof.
  intros H0. split.
  - constructor; [exact H0 | apply update_trace_nonneg].
  - intros brake. apply update_speed.
Qed.

(** C4. After [update(brake=true)] the braking flag is true and the
    acceleration is -8.0; after [update(brake=false)] the braking flag is
    false and the acceleration is the value drawn by
    [random.uniform(-0.5, 0.5)], which lies in [-0.5, 0.5] when that draw
    respects the range [random.uniform] documents. *)
Theorem update_braking_state (s : VehicleSensors) (tick : nat) :
  in_range f_neg_0_5 f_0_5 (random_uniform rt f_neg_0_5 f_0_5 tick) = true ->
  (braking (fst (update rt true s tick)) = true
   /\ accel (fst (update rt true s tick)) = f_neg_8)
  /\ (braking (fst (update rt false s tick)) = false
      /\ accel (fst (update rt false s tick)) = random_uniform rt f_neg_0_5 f_0_5 tick
      /\ in_range f_neg_0_5 f_0_5 (accel (fst (update rt false s tick))) = true).
Proof.
  intros Hdraw. simpl. repeat split. exact Hdraw.
Qed.

End Sensors.

Lemma speed_never_negative_witness :
  fle f_zero (speed (VehicleSensors_init (codes "CarA"))) = true
  /\ Forall (fun s' => fle f_zero (speed s') = true)
            (VehicleSensors_init (codes "CarA")
             :: update_trace test_rt [true; false; true] (VehicleSensors_init (codes "CarA")) 0).
Proof.
  split.
  - reflexivity.
  - apply (speed_never_negative test_rt (VehicleSensors_init (codes "CarA")) 0
             [true; false; true]).
    reflexivity.
Defined.

Lemma update_braking_state_witness :
  braking (fst (update test_rt true (VehicleSensors_init (codes "CarA")) 0)) = true
  /\ braking (fst (update test_rt false (VehicleSensors_init (codes "CarA")) 0)) = false.
Proof.
  destruct (update_braking_state test_rt (VehicleSensors_init (codes "CarA")) 0)
    as [[Hb _] [Hn _]].
  - reflexivity.
  - split; [exact Hb | exact Hn].
Defined.

(** ** Slicing a bit string into groups of 8 *)

Section Chunks.

Lemma chunks_nil : chunks [] = [].
Proof. reflexivity. Qed.

Lemma chunks_short (l : list bool) : 0 < length l < 8 -> chunks l = [l].
Proof.
  intros H. unfold chunks, range8.
  replace ((length l + 7) / 8) with 1
    by (apply Nat.div_unique with (length l - 1); lia).
  cbn [seq map]. unfold slice8. change (8 * 0) with 0. cbn [skipn].
  rewrite firstn_all2 by lia. reflexivity.
Qed.

Lemma chunks_cons8 (g rest : list bool) :
  length g = 8 -> chunks (g ++ rest) = g :: chunks rest.
Proof.
  intros Hg. unfold chunks, range8.
  rewrite length_app, Hg.
  replace (8 + length rest + 7) with (1 * 8 + (length rest + 7)) by lia.
  rewrite Nat.div_add_l by lia.
  change (1 + ?n) with (S n). cbn [seq map].
  rewrite <- seq_shift, !map_map. f_equal.
  - unfold slice8. change (8 * 0) with 0. cbn [skipn]. rewrite firstn_app, Hg.
    rewrite firstn_all2 by lia. cbn [Nat.sub firstn]. apply app_nil_r.
  - apply map_ext. intros k. unfold slice8. f_equal.
    rewrite skipn_app, Hg.
    rewrite skipn_all2 by lia. cbn [app]. f_equal. lia.
Qed.

Lemma groups_short (l : list bool) : length l < 8 -> groups l = [].
Proof.
  intros H. unfold groups. destruct l as [ | b l].
  - reflexivity.
  - rewrite chunks_short by (simpl in *; lia).
    cbn [filter]. unfold complete.
    destruct (Nat.eqb_spec (length (b :: l)) 8) as [E | _]; [lia | reflexivity].
Qed.

Lemma groups_cons8 (g rest : list bool) :
  length g = 8 -> groups (g ++ rest) = g :: groups rest.
Proof.
  intros Hg. unfold groups. rewrite chunks_cons8 by exact Hg.
  cbn [filter]. unfold complete at 1. rewrite Hg. reflexivity.
Qed.

(** Lists can be taken apart eight elements at a time. *)
Lemma list_ind8 (A : Type) (P : list A -> Prop) :
  (forall l, length l < 8 -> P l) ->
  (forall g rest, length g = 8 -> P rest -> P (g ++ rest)) ->
  forall l, P l.
Proof.
  intros Hshort Hcons l.
  remember (length l) as n eqn:Hn.
  revert l Hn. induction n as [n IH] using lt_wf_ind. intros l Hn.
  destruct (Nat.lt_ge_cases (length l) 8) as [Hlt | Hge].
  - apply Hshort, Hlt.
  - rewrite <- (firstn_skipn 8 l). apply Hcons.
    + rewrite length_firstn. lia.
    + apply (IH (length (skipn 8 l))); [rewrite length_skipn; lia | reflexivity].
Qed.

Lemma div8_cons (n : nat) : (8 + n) / 8 = S (n / 8).
Proof.
  replace (8 + n) with (1 * 8 + n) by lia.
  rewrite Nat.div_add_l by lia. reflexivity.
Qed.

Lemma groups_length (l : list bool) : length (groups l) = length l / 8.
Proof.
  induction l as [l Hl | g rest Hg IH] using list_ind8.
  - rewrite groups_short, Nat.div_small by exact Hl. reflexivity.
  - rewrite groups_cons8 by exact Hg.
    rewrite length_app, Hg, div8_cons. simpl. rewrite IH. reflexivity.
Qed.

Lemma groups_complete (l : list bool) : Forall (fun c => length c = 8) (groups l).
Proof.
  apply Forall_forall. intros c Hc. unfold groups in Hc.
  apply filter_In in Hc. destruct Hc as [_ Hc].
  apply Nat.eqb_eq, Hc.
Qed.

(** Cutting the bits after the last complete group changes no group. *)
Lemma groups_firstn (A : Type) (f : A -> bool) (l : list A) :
  groups (map f (firstn (8 * (length l / 8)) l)) = groups (map f l).
Proof.
  induction l as [l Hl | g rest Hg IH] using list_ind8.
  - rewrite Nat.div_small by exact Hl. cbn [Nat.mul firstn map].
    rewrite (groups_short (map f l)) by (rewrite length_map; exact Hl).
    reflexivity.
  - rewrite length_app, Hg, div8_cons.
    replace (8 * S (length rest / 8)) with (length g + 8 * (length rest / 8)) by lia.
    rewrite firstn_app_2, !map_app.
    rewrite !groups_cons8 by (rewrite length_map; exact Hg).
    rewrite IH. reflexivity.
Qed.

End Chunks.

(** ** Decoding *)

Section Decode.

Local Open Scope N_scope.

Lemma int_base2_acc (c : list bool) :
  forall acc : N,
    fold_left (fun a b => 2 * a + N.b2n b) c acc < (acc + 1) * 2 ^ N.of_nat (length c).
Proof.
  induction c as [ | b c IH]; intros acc.
  - simpl. lia.
  - cbn [fold_left length]. rewrite Nat2N.inj_succ, N.pow_succ_r'.
    specialize (IH (2 * acc + N.b2n b)).
    assert (N.b2n b <= 1) by (destruct b; simpl; lia).
    nia.
Qed.

(** A group of 8 binary digits is a number below 256. *)
Lemma int_base2_byte (c : list bool) : length c = 8%nat -> int_base2 c < 256.
Proof.
  intros H. unfold int_base2.
  pose proof (int_base2_acc c 0) as B. rewrite H in B. exact B.
Qed.

Lemma py_chr_byte (n : N) : n < 256 -> py_chr n = Ok n.
Proof.
  intros H. unfold py_chr.
  destruct (N.ltb_spec n 1114112) as [_ | Hge]; [reflexivity | lia].
Qed.

Lemma join_chars_map (f : list bool -> result N) (g : list bool -> N) (cs : list (list bool)) :
  Forall (fun c => f c = Ok (g c)) cs -> join_chars f cs = Ok (map g cs).
Proof.
  induction 1 as [ | c cs Hc _ IH]; simpl.
  - reflexivity.
  - rewrite Hc, IH. reflexivity.
Qed.

Lemma signal_bits_length (sig : signal) : length (signal_bits sig) = length sig.
Proof. apply length_map. Qed.

(** With Python's [chr], the body of the [try] always returns: the
    characters are the values of the complete groups. *)
Lemma decode_try_py_chr (sig : signal) :
  decode_try py_chr sig = Ok (map int_base2 (groups (signal_bits sig))).
Proof.
  unfold decode_try. apply join_chars_map.
  eapply Forall_impl; [ | apply groups_complete].
  intros c Hc. apply py_chr_byte, int_base2_byte, Hc.
Qed.

Lemma decode_message_groups (sig : signal) :
  decode_message sig = map int_base2 (groups (signal_bits sig)).
Proof.
  unfold decode_message, decode_with. rewrite decode_try_py_chr. reflexivity.
Qed.

Lemma decode_message_length (sig : signal) :
  length (decode_message sig) = (length sig / 8)%nat.
Proof.
  rewrite decode_message_groups, length_map, groups_length, signal_bits_length.
  reflexivity.
Qed.

(** C5. On a signal whose length is not a multiple of 8, [decode_message]
    does not raise and returns the string decoded from the complete groups
    of 8 samples alone: the trailing chunk of fewer than 8 bits, though
    sliced, yields no character (one chunk more than characters) and is
    not padded. *)
Theorem decode_discards_trailing_group (sig : signal) :
  (length sig mod 8 <> 0)%nat ->
  decode_try py_chr sig = Ok (decode_message (firstn (8 * (length sig / 8)) sig))
  /\ decode_message sig = decode_message (firstn (8 * (length sig / 8)) sig)
  /\ length (decode_message sig) = (length sig / 8)%nat
  /\ length (chunks (signal_bits sig)) = S (length (decode_message sig)).
Proof.
  intros Hmod.
  assert (E : decode_message sig = decode_message (firstn (8 * (length sig / 8)) sig)).
  { rewrite !decode_message_groups. unfold signal_bits.
    rewrite groups_firstn. reflexivity. }
  repeat split.
  - rewrite <- E, decode_try_py_chr, decode_message_groups. reflexivity.
  - exact E.
  - apply decode_message_length.
  - rewrite decode_message_length. unfold chunks, range8.
    rewrite !length_map, length_seq, signal_bits_length.
    pose proof (Nat.div_mod_eq (length sig) 8) as D.
    pose proof (Nat.mod_upper_bound (length sig) 8) as U.
    symmetry. apply Nat.div_unique with (length sig mod 8 - 1)%nat; lia.
Qed.

(** C10. [decode_message] is a function defined on every signal: the body
    of its [try] returns for every list of samples (the [except] branch is
    never taken), the result has exactly [len(signal) // 8] characters,
    every complete group of 8 bits has a value in 0..255, which [chr]
    accepts, and the result is empty only for fewer than 8 samples. *)
Theorem decode_total (sig : signal) :
  decode_try py_chr sig = Ok (decode_message sig)
  /\ ~ raises (decode_try py_chr sig)
  /\ length (decode_message sig) = (length sig / 8)%nat
  /\ Forall (fun c => length c = 8%nat
                      /\ int_base2 c < 256
                      /\ py_chr (int_base2 c) = Ok (int_base2 c))
            (groups (signal_bits sig))
  /\ (decode_message sig = [] <-> (length sig < 8)%nat).
Proof.
  split; [ | split; [ | split; [ | split]]].
  - rewrite decode_try_py_chr, decode_message_groups. reflexivity.
  - rewrite decode_try_py_chr. intros [e He]. discriminate He.
  - apply decode_message_length.
  - eapply Forall_impl; [ | apply groups_complete].
    intros c Hc. split; [exact Hc | ].
    split; [apply int_base2_byte, Hc | apply py_chr_byte, int_base2_byte, Hc].
  - pose proof (decode_message_length sig) as L. split.
    + intros E. rewrite E in L. cbn [length] in L.
      destruct (Nat.lt_ge_cases (length sig) 8) as [Hlt | Hge]; [exact Hlt | ].
      exfalso.
      assert (1 <= length sig / 8)%nat by (apply Nat.div_le_lower_bound; lia).
      lia.
    + intros Hlt. rewrite Nat.div_small in L by exact Hlt.
      destruct (decode_message sig); [reflexivity | discriminate L].
Qed.

End Decode.

(** ** Encoding, and the round trip *)

Section RoundTrip.

Variable rt : Runtime.

(** Checked on each of the 256 values: a code point below 256 is written
    on exactly 8 digits, and reading them back gives the code point. *)
Lemma format_08b_check :
  forallb (fun k => (length (format_08b (N.of_nat k)) =? 8)
                    && (int_base2 (format_08b (N.of_nat k)) =? N.of_nat k)%N)
          (seq 0 256) = true.
Proof. vm_compute. reflexivity. Qed.

Lemma format_08b_byte (c : N) :
  (c < 256)%N -> length (format_08b c) = 8 /\ int_base2 (format_08b c) = c.
Proof.
  intros H.
  pose proof (proj1 (forallb_forall _ _) format_08b_check (N.to_nat c)) as K.
  cbv beta in K. rewrite N2Nat.id in K.
  assert (Hin : In (N.to_nat c) (seq 0 256)) by (apply in_seq; lia).
  apply K in Hin. apply andb_true_iff in Hin. destruct Hin as [H1 H2].
  split; [apply Nat.eqb_eq, H1 | apply N.eqb_eq, H2].
Qed.

Lemma groups_message_bits (text : pystr) :
  Forall (fun c => (c < 256)%N) text ->
  groups (message_bits text) = map format_08b text.
Proof.
  induction 1 as [ | c text Hc _ IH].
  - reflexivity.
  - unfold message_bits in *. cbn [flat_map map].
    rewrite groups_cons8 by (apply format_08b_byte, Hc).
    rewrite IH. reflexivity.
Qed.

(** Decoding samples that classify to the bits of a text gives the text. *)
Lemma decode_bits_of_text (text : pystr) (sig : signal) :
  Forall (fun c => (c < 256)%N) text ->
  signal_bits sig = message_bits text ->
  decode_message sig = text.
Proof.
  intros Hb Hs.
  rewrite decode_message_groups, Hs.
  rewrite groups_message_bits by exact Hb.
  rewrite map_map. clear Hs.
  induction Hb as [ | c text Hc _ IH]; simpl.
  - reflexivity.
  - rewrite (proj2 (format_08b_byte Hc)), IH. reflexivity.
Qed.

Lemma printable_byte (text : pystr) :
  forallb printable text = true -> Forall (fun c => (c < 256)%N) text.
Proof.
  intros H. apply Forall_forall. intros c Hc.
  apply (proj1 (forallb_forall _ _) H) in Hc. unfold printable in Hc.
  apply andb_true_iff in Hc. destruct Hc as [_ Hc].
  apply N.leb_le in Hc. lia.
Qed.

(** One sample per bit, two draws per sample. *)
Lemma emit_length (bits : list bool) :
  forall tick, length (fst (emit rt bits tick)) = length bits
               /\ snd (emit rt bits tick) = tick + 2 * length bits.
Proof.
  induction bits as [ | b bits IH]; intros tick; simpl.
  - split; [reflexivity | lia].
  - specialize (IH (S (S tick))).
    destruct (emit rt bits (S (S tick))) as [rest tick']. simpl in *.
    destruct IH as [IH1 IH2]. split; [f_equal; exact IH1 | lia].
Qed.

(** C2. Let [m] be a message (a STATUS or EMERGENCY_BRAKE dict, or any
    other) whose serialized text [str(m)] is printable ASCII.  For every
    run of [encode_message] in which each sample classifies back to the bit
    that produced it, [decode_message] returns [str(m)]; the listener's
    parse of the decoded text is therefore the parse of [str(m)], and when
    [ast.literal_eval] reads [str(m)] back as [m] it has [m]'s type and
    sender. *)
Theorem decode_encode_roundtrip (m : pydict) (tick : nat) :
  forallb printable (py_str rt (PyDict m)) = true ->
  signal_bits (fst (encode_message rt (PyDict m) tick))
  = message_bits (py_str rt (PyDict m)) ->
  decode_message (fst (encode_message rt (PyDict m) tick)) = py_str rt (PyDict m)
  /\ literal_eval rt (decode_message (fst (encode_message rt (PyDict m) tick)))
     = literal_eval rt (py_str rt (PyDict m))
  /\ (literal_eval rt (py_str rt (PyDict m)) = Ok (PyDict m) ->
      exists m', literal_eval rt (decode_message (fst (encode_message rt (PyDict m) tick)))
                 = Ok (PyDict m')
                 /\ dict_get m' (codes "type") = dict_get m (codes "type")
                 /\ dict_get m' (codes "from") = dict_get m (codes "from")).
Proof.
  intros Hp Hbits.
  assert (E : decode_message (fst (encode_message rt (PyDict m) tick))
              = py_str rt (PyDict m)).
  { apply decode_bits_of_text; [apply printable_byte, Hp | exact Hbits]. }
  rewrite E. repeat split.
  intros Hparse. exists m. repeat split. exact Hparse.
Qed.

End RoundTrip.

Lemma decode_discards_trailing_group_witness :
  decode_message (repeat f_3 10) = decode_message (repeat f_3 8)
  /\ length (decode_message (repeat f_3 10)) = 1.
Proof.
  destruct (decode_discards_trailing_group (repeat f_3 10)) as (_ & E & L & _).
  - vm_compute. discriminate.
  - split; [exact E | exact L].
Defined.

Lemma decode_encode_roundtrip_witness :
  decode_message (fst (encode_message test_rt (PyDict (brake_msg (codes "CarB"))) 0))
  = codes "{'from': 'CarB', 'type': 'EMERGENCY_BRAKE'}".
Proof.
  destruct (decode_encode_roundtrip test_rt (brake_msg (codes "CarB")) 0) as (E & _).
  - vm_compute. reflexivity.
  - vm_compute. reflexivity.
  - exact E.
Defined.

(** ** Byte values and the failure branch *)

Section Bytes.




End Bytes.

(** The highest byte value, from eight samples of 3.0, is decoded as the
    character of code 255. *)
Example decode_byte_255 : decode_message (repeat f_3 8) = [255%N].
Proof. vm_compute. reflexivity. Qed.



(** ** The optical channel *)

Section Channel.




End Channel.

(** ** Dispatcher, emergency braking and the listener *)

Section Dispatch.

Variable rt : Runtime.

Lemma pystr_eqb_eq (a b : pystr) : pystr_eqb a b = true -> a = b.
Proof.
  unfold pystr_eqb. destruct (list_eq_dec N.eq_dec a b) as [E | _].
  - intros _. exact E.
  - discriminate.
Qed.

(** A message of type EMERGENCY_BRAKE is not of type STATUS. *)
Lemma brake_not_status (msg : pydict) :
  get_equals msg (codes "type") (codes "EMERGENCY_BRAKE") = true ->
  get_equals msg (codes "type") (codes "STATUS") = false.
Proof.
  unfold get_equals.
  destruct (dict_get msg (codes "type")) as [[ | | | | t | | ] | ]; try discriminate.
  intros H. apply pystr_eqb_eq in H. subst t. reflexivity.
Qed.

(** The dispatcher, on a message of type EMERGENCY_BRAKE that names a
    sender, when the alert line can be built and written: it prints,
    then calls [emergency_brake] on its vehicle. *)
Lemma process_message_brake (r : VehicleReceiver) (msg : pydict) (sender : pyval) (w : World) :
  get_equals msg (codes "type") (codes "EMERGENCY_BRAKE") = true ->
  dict_get msg (codes "from") = Some sender ->
  succeeds (py_format rt sender) = true ->
  succeeds (py_print rt (BrakeLine (receiver_name r) sender)) = true ->
  process_message rt r msg w
  = emergency_brake rt (vehicle r) (logged (BrakeLine (receiver_name r) sender) w).
Proof.
  intros Ht Hf Hfmt Hpr.
  unfold process_message, bind, lift, subscript, format_field, print.
  rewrite (brake_not_status msg Ht), Ht, Hf.
  destruct (py_format rt sender) as [text | e]; [ | discriminate Hfmt].
  destruct (py_print rt (BrakeLine (receiver_name r) sender)) as [[] | e];
    [ | discriminate Hpr].
  reflexivity.
Qed.

(** What [emergency_brake] does to the world. *)
Lemma emergency_brake_effect (b : nat) (w : World) :
  fst (emergency_brake rt b w) = Ok tt
  /\ braking (sensors (cars (snd (emergency_brake rt b w)) b)) = true
  /\ accel (sensors (cars (snd (emergency_brake rt b w)) b)) = f_neg_8
  /\ name (cars (snd (emergency_brake rt b w)) b) = name (cars w b)
  /\ q (channel (snd (emergency_brake rt b w)))
     = q (channel w)
       ++ [fst (encode_message rt (PyDict (brake_msg (name (cars w b)))) (S (draws w)))]
  /\ (forall i, i <> b -> cars (snd (emergency_brake rt b w)) i = cars w i).
Proof.
  unfold emergency_brake, broadcast. cbn [update read_data].
  destruct (encode_message rt (PyDict (brake_msg (name (cars w b)))) (S (draws w)))
    as [encoded t3].
  cbn [fst snd cars channel]. unfold set_sensors.
  rewrite Nat.eqb_refl. cbn.
  repeat split.
  intros i Hi. destruct (Nat.eqb_spec i b) as [E | _]; [contradiction | reflexivity].
Qed.

(** C1, as the code has it.  A listening vehicle B whose dispatcher is
    given a message of type EMERGENCY_BRAKE that has a sender, and whose
    alert line is built and printed without an exception, calls its own
    [emergency_brake], which is [broadcast(brake=True)]: the call returns,
    B's braking flag is true, its acceleration is -8.0, and the channel has
    received one more signal, the encoding of an EMERGENCY_BRAKE message
    whose ['from'] is B's own name. *)
Theorem emergency_brake_propagates
  (r : VehicleReceiver) (msg : pydict) (sender : pyval) (w : World) :
  get_equals msg (codes "type") (codes "EMERGENCY_BRAKE") = true ->
  dict_get msg (codes "from") = Some sender ->
  succeeds (py_format rt sender) = true ->
  succeeds (py_print rt (BrakeLine (receiver_name r) sender)) = true ->
  process_message rt r msg w
  = emergency_brake rt (vehicle r) (logged (BrakeLine (receiver_name r) sender) w)
  /\ emergency_brake rt (vehicle r) = broadcast rt (vehicle r) true
  /\ fst (process_message rt r msg w) = Ok tt
  /\ braking (sensors (cars (snd (process_message rt r msg w)) (vehicle r))) = true
  /\ accel (sensors (cars (snd (process_message rt r msg w)) (vehicle r))) = f_neg_8
  /\ q (channel (snd (process_message rt r msg w)))
     = q (channel w)
       ++ [fst (encode_message rt (PyDict (brake_msg (name (cars w (vehicle r)))))
                               (S (draws w)))]
  /\ dict_get (brake_msg (name (cars w (vehicle r)))) (codes "from")
     = Some (PyStr (name (cars w (vehicle r))))
  /\ get_equals (brake_msg (name (cars w (vehicle r))))
                (codes "type") (codes "EMERGENCY_BRAKE") = true.
Proof.
  intros Ht Hf Hfmt Hpr.
  rewrite (process_message_brake r msg w Ht Hf Hfmt Hpr).
  destruct (emergency_brake_effect (vehicle r)
              (logged (BrakeLine (receiver_name r) sender) w))
    as (H1 & H2 & H3 & _ & H5 & _).
  repeat split; assumption.
Qed.

(** C9, as the code has it.  The dispatcher does not look at who sent an
    EMERGENCY_BRAKE message: for every dict of that type that has a
    ['from'] entry, whatever its value, once the alert line is built and
    printed without an exception, [process_message] calls the vehicle's
    [emergency_brake].  In particular, given the message the vehicle
    itself broadcasts when braking (and a line with its own name that
    prints), the vehicle brakes again and puts a further EMERGENCY_BRAKE
    message of its own on the channel. *)
Theorem dispatcher_ignores_sender
  (r : VehicleReceiver) (msg : pydict) (sender : pyval) (w : World) :
  get_equals msg (codes "type") (codes "EMERGENCY_BRAKE") = true ->
  dict_get msg (codes "from") = Some sender ->
  succeeds (py_format rt sender) = true ->
  succeeds (py_print rt (BrakeLine (receiver_name r) sender)) = true ->
  process_message rt r msg w
  = emergency_brake rt (vehicle r) (logged (BrakeLine (receiver_name r) sender) w)
  /\ (succeeds (py_format rt (PyStr (name (cars w (vehicle r))))) = true ->
      succeeds (py_print rt (BrakeLine (receiver_name r)
                                       (PyStr (name (cars w (vehicle r)))))) = true ->
      process_message rt r (brake_msg (name (cars w (vehicle r)))) w
      = emergency_brake rt (vehicle r)
          (logged (BrakeLine (receiver_name r) (PyStr (name (cars w (vehicle r))))) w)
      /\ braking (sensors (cars (snd (process_message rt r
                                        (brake_msg (name (cars w (vehicle r)))) w))
                                (vehicle r))) = true
      /\ q (channel (snd (process_message rt r (brake_msg (name (cars w (vehicle r)))) w)))
         = q (channel w)
           ++ [fst (encode_message rt (PyDict (brake_msg (name (cars w (vehicle r)))))
                                   (S (draws w)))]).
Proof.
  intros Ht Hf Hfmt Hpr.
  split; [apply process_message_brake; assumption | ].
  intros Hfmt' Hpr'.
  assert (Hown : process_message rt r (brake_msg (name (cars w (vehicle r)))) w
                 = emergency_brake rt (vehicle r)
                     (logged (BrakeLine (receiver_name r)
                                        (PyStr (name (cars w (vehicle r))))) w)).
  { apply process_message_brake; [reflexivity | reflexivity | exact Hfmt' | exact Hpr']. }
  split; [exact Hown | ].
  rewrite Hown.
  destruct (emergency_brake_effect (vehicle r)
              (logged (BrakeLine (receiver_name r)
                                 (PyStr (name (cars w (vehicle r))))) w))
    as (_ & H2 & _ & _ & H5 & _).
  split; assumption.
Qed.

(** One pass of the listener's loop body ends normally, whatever the
    channel holds and whatever parsing and dispatching do. *)
Lemma listen_step_ok (r : VehicleReceiver) (w : World) :
  fst (listen_step rt r w) = Ok tt.
Proof.
  unfold listen_step, bind, channel_receive.
  destruct (receive (channel w)) as [[s | ] ch]; [ | reflexivity].
  destruct (truthy (decode_message s)); [ | reflexivity].
  unfold try_except.
  match goal with
  | |- fst (match ?c with _ => _ end) = _ => destruct c as [[[] | e] w']
  end; reflexivity.
Qed.

Lemma listen_runs (r : VehicleReceiver) (n : nat) :
  forall w, fst (listen rt r n w) = Ok n.
Proof.
  induction n as [ | n IH]; intros w.
  - reflexivity.
  - cbn [listen]. unfold bind at 1.
    pose proof (listen_step_ok r w) as Hs.
    destruct (listen_step rt r w) as [res w1]. cbn [fst] in Hs. subst res.
    unfold bind. specialize (IH w1).
    destruct (listen rt r n w1) as [res w2]. cbn [fst] in IH. subst res.
    reflexivity.
Qed.

(** C6. For every state of the channel, hence every received signal, one
    pass through the body of the listener's loop raises nothing and does
    not leave the loop: an empty decoded string, a failure of
    [ast.literal_eval], a value that is not a dict and an exception raised
    by the dispatcher all end the pass normally, and the loop, cut after
    any number [n] of passes, has made all [n] of them. *)
Theorem listener_never_stops (r : VehicleReceiver) (w : World) :
  fst (listen_step rt r w) = Ok tt
  /\ (forall n, fst (listen rt r n w) = Ok n)
  /\ (forall s rest,
         q (channel w) = s :: rest ->
         (decode_message s = []
          \/ raises (literal_eval rt (decode_message s))
          \/ (exists v, literal_eval rt (decode_message s) = Ok v
                        /\ forall d, v <> PyDict d)) ->
         snd (listen_step rt r w)
         = {| cars := cars w; channel := {| q := rest |};
              draws := draws w; stdout := stdout w |}).
Proof.
  split; [apply listen_step_ok | ].
  split; [intros n; apply listen_runs | ].
  intros s rest Hq Hcase.
  unfold listen_step, bind, channel_receive, receive. rewrite Hq.
  destruct Hcase as [He | [[e He] | (v & Hv & Hnd)]].
  - rewrite He. reflexivity.
  - destruct (truthy (decode_message s)); [ | reflexivity].
    unfold try_except, bind, lift. rewrite He. reflexivity.
  - destruct (truthy (decode_message s)); [ | reflexivity].
    unfold try_except, bind, lift. rewrite Hv.
    destruct v; try reflexivity.
    exfalso. apply (Hnd items). reflexivity.
Qed.

End Dispatch.

(** A dict of type EMERGENCY_BRAKE that names no sender: the f-string
    raises [KeyError] and [emergency_brake] is not reached. *)
Example brake_without_sender :
  process_message test_rt (receiver (cars test_world 1))
                  [(codes "type", PyStr (codes "EMERGENCY_BRAKE"))] test_world
  = (Raise (KeyError (codes "from")), test_world).
Proof. reflexivity. Qed.

(** C9, as stated, fails: a dict whose type is EMERGENCY_BRAKE does not
    always make [process_message] call [emergency_brake], after which the
    vehicle would be braking; without a ['from'] entry the call is not
    reached and the vehicle is left as it was. *)
Lemma dispatcher_needs_sender :
  ~ (forall (rt : Runtime) (r : VehicleReceiver) (msg : pydict) (w : World),
        get_equals msg (codes "type") (codes "EMERGENCY_BRAKE") = true ->
        braking (sensors (cars (snd (process_message rt r msg w)) (vehicle r))) = true).
Proof.
  intros H.
  specialize (H test_rt (receiver (cars test_world 1))
                [(codes "type", PyStr (codes "EMERGENCY_BRAKE"))] test_world
                eq_refl).
  rewrite brake_without_sender in H.
  discriminate H.
Qed.

(** The alert of a vehicle whose name is a lone surrogate (code point
    D800): the line cannot be written to a UTF-8 terminal, [print] raises
    and [emergency_brake] is not reached. *)
Example alert_with_unprintable_sender :
  process_message test_rt (receiver (cars test_world 1))
                  (brake_msg [55296%N]) test_world
  = (Raise UnicodeEncodeError, test_world).
Proof. reflexivity. Qed.

(** C1, as stated, fails: a message of type EMERGENCY_BRAKE, even one
    that names its sender, does not always make the listening vehicle
    brake; when the alert line cannot be printed the vehicle is left as
    it was. *)
Lemma alert_lost_when_print_fails :
  ~ (forall (rt : Runtime) (r : VehicleReceiver) (msg : pydict) (sender : pyval)
            (w : World),
        get_equals msg (codes "type") (codes "EMERGENCY_BRAKE") = true ->
        dict_get msg (codes "from") = Some sender ->
        braking (sensors (cars (snd (process_message rt r msg w)) (vehicle r))) = true).
Proof.
  intros H.
  specialize (H test_rt (receiver (cars test_world 1))
                (brake_msg [55296%N]) (PyStr [55296%N]) test_world
                eq_refl eq_refl).
  rewrite alert_with_unprintable_sender in H.
  discriminate H.
Qed.

Lemma emergency_brake_propagates_witness :
  braking (sensors (cars (snd (process_message test_rt (receiver (cars test_world 1))
                                               (brake_msg (codes "CarA")) test_world)) 1))
  = true.
Proof.
  destruct (emergency_brake_propagates test_rt (receiver (cars test_world 1))
              (brake_msg (codes "CarA")) (sender := PyStr (codes "CarA")) test_world)
    as (_ & _ & _ & H & _).
  - reflexivity.
  - reflexivity.
  - reflexivity.
  - reflexivity.
  - exact H.
Defined.

Lemma dispatcher_ignores_sender_witness :
  process_message test_rt (receiver (cars test_world 1))
                  (brake_msg (codes "CarB")) test_world
  = emergency_brake test_rt 1
      (logged (BrakeLine (codes "CarB") (PyStr (codes "CarB"))) test_world).
Proof.
  destruct (dispatcher_ignores_sender test_rt (receiver (cars test_world 1))
              (brake_msg (codes "CarB")) (sender := PyStr (codes "CarB")) test_world)
    as (H & _).
  - reflexivity.
  - reflexivity.
  - reflexivity.
  - reflexivity.
  - exact H.
Defined.

(** ** The convoy, run on the test runtime *)

(** CarA brakes hard; CarB's listener takes the signal from the channel,
    decodes it, brakes and leaves its own alert on the channel. *)
Example convoy_brake_reaches_b :
  let w1 := snd (broadcast test_rt 0 true test_world) in
  let w2 := snd (listen_step test_rt (receiver (cars test_world 1)) w1) in
  braking (sensors (cars w2 1)) = true
  /\ accel (sensors (cars w2 1)) = f_neg_8
  /\ map decode_message (q (channel w2))
     = [codes "{'from': 'CarB', 'type': 'EMERGENCY_BRAKE'}"].
Proof. vm_compute. repeat split. Qed.

(** CarB's listener then takes CarB's own alert, and again: each pass
    prints an alert and leaves a new one on the channel. *)
Example own_alert_loops :
  let w1 := snd (broadcast test_rt 1 true test_world) in
  let w2 := snd (listen test_rt (receiver (cars test_world 1)) 3 w1) in
  stdout w2 = repeat (BrakeLine (codes "CarB") (PyStr (codes "CarB"))) 3
  /\ length (q (channel w2)) = 1.
Proof. vm_compute. split; reflexivity. Qed.

(** A dict that the dispatcher cannot handle is dropped by the listener. *)
Example listener_drops_bad_dict :
  let text := codes "{'type': 'EMERGENCY_BRAKE'}" in
  let sig := fst (emit test_rt (message_bits text) 0) in
  let w := {| cars := cars test_world; channel := {| q := [sig] |};
              draws := 0; stdout := [] |} in
  decode_message sig = text
  /\ fst (listen_step test_rt (receiver (cars test_world 1)) w) = Ok tt
  /\ braking (sensors (cars (snd (listen_step test_rt (receiver (cars test_world 1)) w)) 1))
     = false
  /\ q (channel (snd (listen_step test_rt (receiver (cars test_world 1)) w))) = [].
Proof. vm_compute. repeat split. Qed.

(* ===================================================================== *)
(** * Further properties of the code *)
(* ===================================================================== *)

(** ** The codec beyond the round trip *)

Section CodecFacts.

Variable rt : Runtime.

Lemma size_byte (c : N) : (N.to_nat (N.size c) <= 8)%nat <-> (c < 256)%N.
Proof.
  destruct (N.eq_dec c 0) as [-> | Hc].
  - simpl. split; intros _; lia.
  - rewrite N.size_log2 by exact Hc.
    change 256%N with (2 ^ 8)%N.
    pose proof (N.log2_lt_pow2 c 8) as L.
    assert (0 < c)%N as Hpos by lia. specialize (L Hpos).
    split; intros H; [apply L | apply L in H]; lia.
Qed.

Lemma format_08b_length (c : N) :
  length (format_08b c) = Nat.max 8 (N.to_nat (N.size c)).
Proof.
  unfold format_08b. rewrite length_map, length_rev, length_seq. reflexivity.
Qed.

Lemma decode_message_bytes (sig : signal) :
  Forall (fun c => (c < 256)%N) (decode_message sig).
Proof.
  rewrite decode_message_groups. apply Forall_map.
  eapply Forall_impl; [ | apply groups_complete].
  intros c Hc. apply int_base2_byte, Hc.
Qed.

(** [encode_message] writes a code point on exactly 8 bits only when it is
    below 256, and on more otherwise; [decode_message] returns code points
    below 256 only.  A text with a character above 255 is therefore never
    what [decode_message] returns, whatever the samples. *)
Theorem wide_characters_never_recovered :
  (forall c, (8 <= length (format_08b c))%nat
             /\ (length (format_08b c) = 8%nat <-> (c < 256)%N))
  /\ (forall sig, Forall (fun c => (c < 256)%N) (decode_message sig))
  /\ (forall sig text, Exists (fun c => (256 <= c)%N) text -> decode_message sig <> text).
Proof.
  split; [ | split].
  - intros c. rewrite format_08b_length. split; [lia | ].
    rewrite <- size_byte. lia.
  - apply decode_message_bytes.
  - intros sig text Hex E.
    pose proof (decode_message_bytes sig) as Hb. rewrite E in Hb.
    apply Exists_exists in Hex. destruct Hex as (c & Hin & Hc).
    rewrite Forall_forall in Hb. specialize (Hb c Hin). lia.
Qed.

Lemma message_bits_length (text : pystr) :
  Forall (fun c => (c < 256)%N) text -> length (message_bits text) = 8 * length text.
Proof.
  induction 1 as [ | c text Hc _ IH].
  - reflexivity.
  - unfold message_bits in *. cbn [flat_map length].
    rewrite length_app, IH, (proj1 (format_08b_byte Hc)). lia.
Qed.

(** [encode_message] emits one sample per bit of the text and makes two
    draws per sample.  For a text of code points below 256 that is 8
    samples per character, and decoding the signal gives a string of the
    length of the text, however the noise falls. *)
Theorem encode_signal_length (m : pyval) (tick : nat) :
  length (fst (encode_message rt m tick)) = length (message_bits (py_str rt m))
  /\ snd (encode_message rt m tick) = tick + 2 * length (message_bits (py_str rt m))
  /\ (Forall (fun c => (c < 256)%N) (py_str rt m) ->
      length (fst (encode_message rt m tick)) = 8 * length (py_str rt m)
      /\ length (decode_message (fst (encode_message rt m tick))) = length (py_str rt m)).
Proof.
  unfold encode_message.
  destruct (emit_length rt (message_bits (py_str rt m)) tick) as [L D].
  split; [exact L | split; [exact D | ]].
  intros Hb. rewrite decode_message_length, L, message_bits_length by exact Hb.
  split; [reflexivity | ].
  rewrite Nat.mul_comm. apply Nat.div_mul. lia.
Qed.

(** Writing the value of 8 binary digits on 8 digits gives them back. *)
Lemma format_int_base2 (c : list bool) : length c = 8 -> format_08b (int_base2 c) = c.
Proof.
  intros H.
  do 8 (destruct c as [ | ? c]; [discriminate H | ]).
  destruct c as [ | ? c]; [ | discriminate H].
  clear H.
  repeat match goal with b : bool |- _ => destruct b end; reflexivity.
Qed.

Lemma concat_groups (bits : list bool) :
  length bits mod 8 = 0 -> concat (groups bits) = bits.
Proof.
  induction bits as [l Hl | g rest Hg IH] using list_ind8.
  - intros Hm. rewrite Nat.mod_small in Hm by exact Hl.
    destruct l; [reflexivity | discriminate Hm].
  - intros Hm. rewrite groups_cons8 by exact Hg. cbn [concat].
    rewrite IH; [reflexivity | ].
    rewrite length_app, Hg in Hm.
    replace (8 + length rest) with (length rest + 1 * 8) in Hm by lia.
    rewrite Nat.Div0.mod_add in Hm. exact Hm.
Qed.

(** For a text of code points below 256 and a signal of 8 samples per
    character, [decode_message] returns the text exactly when every sample
    classifies to the bit it stands for: one misread sample changes the
    decoded text. *)
Theorem decode_exact_iff_bits (text : pystr) (sig : signal) :
  Forall (fun c => (c < 256)%N) text ->
  length sig = 8 * length text ->
  (decode_message sig = text <-> signal_bits sig = message_bits text).
Proof.
  intros Hb Hlen. split.
  - intros E. rewrite decode_message_groups in E.
    assert (G : groups (signal_bits sig) = map format_08b text).
    { rewrite <- E, map_map.
      rewrite <- (map_id (groups (signal_bits sig))) at 1.
      apply map_ext_Forall.
      eapply Forall_impl; [ | apply groups_complete].
      intros c Hc. symmetry. apply format_int_base2, Hc. }
    unfold message_bits. rewrite flat_map_concat_map, <- G.
    symmetry. apply concat_groups.
    rewrite signal_bits_length, Hlen, Nat.mul_comm. apply Nat.Div0.mod_mul.
  - apply decode_bits_of_text, Hb.
Qed.

(** The classification looks at the magnitude of a sample only: a sample
    and its opposite give the same bit; NaN gives 0, an infinity gives 1,
    and a sample of magnitude exactly 1.5 gives 0. *)
Theorem classify_magnitude :
  (forall val, classify (SFopp val) = classify val)
  /\ classify S754_nan = false
  /\ (forall sign, classify (S754_infinity sign) = true)
  /\ classify f_1_5 = false
  /\ classify (SFopp f_1_5) = false.
Proof.
  split; [ | split; [ | split; [ | split]]]; try reflexivity.
  intros [s | s | | s m e]; reflexivity.
Qed.

End CodecFacts.

Lemma decode_exact_iff_bits_witness :
  decode_message (fst (emit test_rt (message_bits (codes "Hi")) 0)) = codes "Hi"
  <-> signal_bits (fst (emit test_rt (message_bits (codes "Hi")) 0))
      = message_bits (codes "Hi").
Proof.
  apply (decode_exact_iff_bits (text := codes "Hi")).
  - repeat constructor.
  - reflexivity.
Defined.

(** ** The channel as a queue *)

Section ChannelFacts.

(** [n] calls of [receive], by any listeners, hand out the first [n]
    pending signals in the order they were transmitted, each to the call
    that came at its turn, and [None] to every call made once the queue is
    empty; what was not handed out stays pending, in order. *)
Theorem receives_drain_in_order (ls : list nat) :
  forall ch : OpticalChannel,
    map fst (fst (run_calls (map Receive ls) ch)) = ls
    /\ map snd (fst (run_calls (map Receive ls) ch))
       = map Some (firstn (length ls) (q ch))
         ++ repeat None (length ls - length (q ch))
    /\ q (snd (run_calls (map Receive ls) ch)) = skipn (length ls) (q ch).
Proof.
  induction ls as [ | l ls IH]; intros ch.
  - repeat split.
  - cbn [map run_calls]. unfold receive.
    destruct (q ch) as [ | s rest] eqn:Hq.
    + specialize (IH ch). rewrite Hq in IH.
      destruct (run_calls (map Receive ls) ch) as [rs ch'].
      cbn [fst snd map length] in *. destruct IH as (I1 & I2 & I3).
      rewrite I1, I2, I3, firstn_nil, skipn_nil, Nat.sub_0_r.
      repeat split.
    + specialize (IH {| q := rest |}).
      destruct (run_calls (map Receive ls) {| q := rest |}) as [rs ch'].
      cbn [fst snd map length q firstn skipn Nat.sub] in *.
      destruct IH as (I1 & I2 & I3).
      rewrite I1, I2, I3. repeat split.
Qed.

End ChannelFacts.

(** ** Braking to a halt *)

Section Halt.

Variable rt : Runtime.

Lemma brake_n_add (a b : nat) :
  forall s tick, brake_n rt (a + b) s tick = brake_n rt b (brake_n rt a s tick) tick.
Proof.
  induction a as [ | a IH]; intros s tick.
  - reflexivity.
  - cbn [Nat.add brake_n update]. apply IH.
Qed.

Lemma stopped_stays_stopped (s : VehicleSensors) (tick : nat) :
  speed s = f_zero -> speed (fst (update rt true s tick)) = f_zero.
Proof.
  intros H. cbn [update fst speed]. rewrite H. reflexivity.
Qed.

Lemma brake_n_stopped (n : nat) :
  forall s tick, speed s = f_zero -> speed (brake_n rt n s tick) = f_zero.
Proof.
  induction n as [ | n IH]; intros s tick H.
  - exact H.
  - cbn [brake_n update]. apply IH.
    apply (stopped_stays_stopped s tick H).
Qed.

(** A newly created vehicle (25 m/s) that brakes on every update is still
    moving after each of the first 31 updates, stands still after the
    32nd and stays so on every later one; in general a vehicle at speed 0
    stays at speed 0 through [update(brake=True)]. *)
Theorem braking_vehicle_stops (nm : pystr) (tick : nat) :
  (forall n, n < 32 ->
             flt f_zero (speed (brake_n rt n (VehicleSensors_init nm) tick)) = true)
  /\ (forall n, 32 <= n -> speed (brake_n rt n (VehicleSensors_init nm) tick) = f_zero)
  /\ (forall s t, speed s = f_zero -> speed (fst (update rt true s t)) = f_zero).
Proof.
  split; [ | split].
  - intros n Hn.
    assert (C : forallb (fun k => flt f_zero
                                   (speed (brake_n rt k (VehicleSensors_init nm) tick)))
                        (seq 0 32) = true) by (vm_compute; reflexivity).
    apply (proj1 (forallb_forall _ _) C). apply in_seq. lia.
  - intros n Hn. replace n with (32 + (n - 32)) by lia.
    rewrite brake_n_add. apply brake_n_stopped. vm_compute. reflexivity.
  - intros s t. apply stopped_stays_stopped.
Qed.

End Halt.

(** ** Broadcast and the dispatcher, case by case *)

Section DispatchFacts.

Variable rt : Runtime.

Lemma broadcast_unfold (self : nat) (brake : bool) (w : World) :
  broadcast rt self brake w
  = (Ok tt,
     {| cars := set_sensors self
                  (fst (update rt brake (sensors (cars w self)) (draws w))) w;
        channel :=
          transmit (channel w)
            (fst (encode_message rt
                    (PyDict (if brake then brake_msg (name (cars w self))
                             else fst (read_data rt
                                         (fst (update rt brake (sensors (cars w self)) (draws w)))
                                         (snd (update rt brake (sensors (cars w self)) (draws w))))))
                    (S (snd (update rt brake (sensors (cars w self)) (draws w))))));
        draws :=
          snd (encode_message rt
                 (PyDict (if brake then brake_msg (name (cars w self))
                          else fst (read_data rt
                                      (fst (update rt brake (sensors (cars w self)) (draws w)))
                                      (snd (update rt brake (sensors (cars w self)) (draws w))))))
                 (S (snd (update rt brake (sensors (cars w self)) (draws w)))));
        stdout := stdout w |}).
Proof.
  unfold broadcast.
  destruct (update rt brake (sensors (cars w self)) (draws w)) as [s' t1].
  cbn [read_data fst snd].
  destruct (encode_message rt _ (S t1)) as [encoded t3].
  reflexivity.
Qed.

Lemma set_sensors_same (self : nat) (s : VehicleSensors) (w : World) :
  set_sensors self s w self
  = {| name := name (cars w self); sensors := s; receiver := receiver (cars w self) |}.
Proof. unfold set_sensors. rewrite Nat.eqb_refl. reflexivity. Qed.

Lemma set_sensors_other (self i : nat) (s : VehicleSensors) (w : World) :
  i <> self -> set_sensors self s w i = cars w i.
Proof.
  intros H. unfold set_sensors.
  destruct (Nat.eqb_spec i self) as [E | _]; [contradiction | reflexivity].
Qed.

Lemma round_speed_zero : round_speed rt f_zero = PyInt 0.
Proof. reflexivity. Qed.

Lemma round_speed_positive (x : float) :
  flt f_zero x = true -> round_speed rt x = PyFloat (py_round rt x 2).
Proof.
  destruct x as [[ | ] | s | | s m e]; try reflexivity.
  intros H. discriminate H.
Qed.

(** [broadcast] always returns.  It replaces the sensors of its own
    vehicle by their updated state and touches no other vehicle, nor the
    vehicle's name or receiver; it appends exactly one signal to the
    channel and prints nothing.  With [brake=False] the signal encodes the
    STATUS dict read after the update: its type is STATUS, its sender the
    sensors' name, its braking flag false, and its speed the new speed
    rounded, a float when the vehicle moves and the int 0 when the clamp
    has stopped it. *)
Theorem broadcast_effect (self : nat) (brake : bool) (w : World) :
  fst (broadcast rt self brake w) = Ok tt
  /\ sensors (cars (snd (broadcast rt self brake w)) self)
     = fst (update rt brake (sensors (cars w self)) (draws w))
  /\ name (cars (snd (broadcast rt self brake w)) self) = name (cars w self)
  /\ receiver (cars (snd (broadcast rt self brake w)) self) = receiver (cars w self)
  /\ (forall i, i <> self -> cars (snd (broadcast rt self brake w)) i = cars w i)
  /\ (exists sig, q (channel (snd (broadcast rt self brake w))) = q (channel w) ++ [sig])
  /\ stdout (snd (broadcast rt self brake w)) = stdout w
  /\ (brake = false ->
      exists status,
        q (channel (snd (broadcast rt self brake w)))
        = q (channel w)
          ++ [fst (encode_message rt (PyDict status) (S (S (draws w))))]
        /\ get_equals status (codes "type") (codes "STATUS") = true
        /\ dict_get status (codes "from")
           = Some (PyStr (sensors_name (sensors (cars w self))))
        /\ dict_get status (codes "braking") = Some (PyBool false)
        /\ (flt f_zero (speed (sensors (cars (snd (broadcast rt self brake w)) self)))
            = true ->
            dict_get status (codes "speed_mps")
            = Some (PyFloat (py_round rt
                               (speed (sensors (cars (snd (broadcast rt self brake w)) self)))
                               2)))
        /\ (flt f_zero (speed (sensors (cars (snd (broadcast rt self brake w)) self)))
            = false ->
            speed (sensors (cars (snd (broadcast rt self brake w)) self)) = f_zero
            /\ dict_get status (codes "speed_mps") = Some (PyInt 0))).
Proof.
  rewrite broadcast_unfold. cbn [fst snd cars channel stdout].
  rewrite set_sensors_same. cbn [sensors name receiver].
  split; [reflexivity | ]. split; [reflexivity | ].
  split; [reflexivity | ]. split; [reflexivity | ].
  split; [intros i Hi; apply set_sensors_other, Hi | ].
  split; [eexists; reflexivity | ].
  split; [reflexivity | ].
  intros ->. eexists. split; [reflexivity | ].
  split; [reflexivity | ]. split; [reflexivity | ]. split; [reflexivity | ].
  cbn [read_data fst dict_get].
  set (x := speed (fst (update rt false (sensors (cars w self)) (draws w)))).
  assert (Hx : x = py_max0 (fadd (speed (sensors (cars w self)))
                                 (fmul (random_uniform rt f_neg_0_5 f_0_5 (draws w)) f_0_1)))
    by reflexivity.
  change (dict_get
            ((codes "speed_mps", round_speed rt x)
             :: (codes "accel_mps2",
                 PyFloat (py_round rt
                            (accel (fst (update rt false (sensors (cars w self)) (draws w))))
                            2))
             :: (codes "braking",
                 PyBool (braking (fst (update rt false (sensors (cars w self)) (draws w)))))
             :: (codes "hazard",
                 PyStr (hazard (fst (update rt false (sensors (cars w self)) (draws w)))))
             :: [(codes "type", PyStr (codes "STATUS"))])
            (codes "speed_mps"))
    with (Some (round_speed rt x)).
  split.
  - intros Hpos. rewrite (round_speed_positive x Hpos). reflexivity.
  - intros Hz. assert (E : x = f_zero).
    { rewrite Hx in *. unfold py_max0 in *.
      destruct (flt f_zero (fadd (speed (sensors (cars w self)))
                                 (fmul (random_uniform rt f_neg_0_5 f_0_5 (draws w)) f_0_1)))
        eqn:F; [rewrite F in Hz; discriminate Hz | reflexivity]. }
    rewrite E. split; reflexivity.
Qed.

Lemma status_not_brake (msg : pydict) :
  get_equals msg (codes "type") (codes "STATUS") = true ->
  get_equals msg (codes "type") (codes "EMERGENCY_BRAKE") = false.
Proof.
  unfold get_equals.
  destruct (dict_get msg (codes "type")) as [[ | | | | t | | ] | ]; try discriminate.
  intros H. apply pystr_eqb_eq in H. subst t. reflexivity.
Qed.

Lemma status_message_logged
  (r : VehicleReceiver) (msg : pydict) (sender sp : pyval) (w : World) :
  get_equals msg (codes "type") (codes "STATUS") = true ->
  dict_get msg (codes "from") = Some sender ->
  dict_get msg (codes "speed_mps") = Some sp ->
  succeeds (py_format rt sender) = true ->
  succeeds (py_format rt sp) = true ->
  succeeds (py_print rt (StatusLine (receiver_name r) sender sp)) = true ->
  process_message rt r msg w
  = (Ok tt, logged (StatusLine (receiver_name r) sender sp) w).
Proof.
  intros Ht Hf Hs F1 F2 P.
  unfold process_message, bind, lift, subscript, format_field, print.
  rewrite Ht, (status_not_brake msg Ht), Hf, Hs.
  destruct (py_format rt sender) as [t1 | e]; [ | discriminate F1].
  destruct (py_format rt sp) as [t2 | e]; [ | discriminate F2].
  destruct (py_print rt (StatusLine (receiver_name r) sender sp)) as [[] | e];
    [ | discriminate P].
  reflexivity.
Qed.

(** On a dict of type STATUS that has a sender and a speed, when both
    values format and the line prints, the dispatcher prints one status
    line with the two values and does nothing else: no vehicle, no signal
    and no draw is touched. *)
Theorem status_message_only_logs
  (r : VehicleReceiver) (msg : pydict) (sender sp : pyval) (w : World) :
  get_equals msg (codes "type") (codes "STATUS") = true ->
  dict_get msg (codes "from") = Some sender ->
  dict_get msg (codes "speed_mps") = Some sp ->
  succeeds (py_format rt sender) = true ->
  succeeds (py_format rt sp) = true ->
  succeeds (py_print rt (StatusLine (receiver_name r) sender sp)) = true ->
  process_message rt r msg w
  = (Ok tt, {| cars := cars w; channel := channel w; draws := draws w;
               stdout := stdout w ++ [StatusLine (receiver_name r) sender sp] |}).
Proof.
  intros Ht Hf Hs F1 F2 P.
  rewrite (status_message_logged r msg w Ht Hf Hs F1 F2 P). reflexivity.
Qed.

(** A dict whose type is neither STATUS nor EMERGENCY_BRAKE (another
    string, a value that is not a string, or no type at all) is a no-op:
    the dispatcher returns and the world is as before. *)
Theorem unknown_type_is_noop (r : VehicleReceiver) (msg : pydict) (w : World) :
  get_equals msg (codes "type") (codes "STATUS") = false ->
  get_equals msg (codes "type") (codes "EMERGENCY_BRAKE") = false ->
  process_message rt r msg w = (Ok tt, w).
Proof.
  intros Hs Hb. unfold process_message, bind. rewrite Hs, Hb. reflexivity.
Qed.


End DispatchFacts.

Lemma status_message_only_logs_witness :
  stdout (snd (process_message test_rt (receiver (cars test_world 1))
                 (fst (read_data test_rt (sensors (cars test_world 0)) 0)) test_world))
  = [StatusLine (codes "CarB") (PyStr (codes "CarA")) (PyFloat f_25)].
Proof.
  rewrite (status_message_only_logs test_rt (receiver (cars test_world 1))
             (fst (read_data test_rt (sensors (cars test_world 0)) 0))
             (sender := PyStr (codes "CarA")) (sp := PyFloat f_25) test_world).
  - reflexivity.
  - reflexivity.
  - reflexivity.
  - reflexivity.
  - reflexivity.
  - reflexivity.
  - reflexivity.
Defined.

Lemma unknown_type_is_noop_witness :
  process_message test_rt (receiver (cars test_world 1))
                  [(codes "type", PyStr (codes "HELLO"))] test_world
  = (Ok tt, test_world).
Proof.
  apply (unknown_type_is_noop test_rt (receiver (cars test_world 1))
           [(codes "type", PyStr (codes "HELLO"))] test_world).
  - reflexivity.
  - reflexivity.
Defined.

(** ** What a thread may change *)

Section Frames.

Variable rt : Runtime.

Lemma identity_kept_refl (w : World) : identity_kept w w.
Proof. intros i. repeat split. Qed.

Lemma identity_kept_trans (w1 w2 w3 : World) :
  identity_kept w1 w2 -> identity_kept w2 w3 -> identity_kept w1 w3.
Proof.
  intros H12 H23 i.
  destruct (H12 i) as (A1 & A2 & A3 & A4). destruct (H23 i) as (B1 & B2 & B3 & B4).
  repeat split; congruence.
Qed.

Lemma update_keeps (brake : bool) (s : VehicleSensors) (tick : nat) :
  sensors_name (fst (update rt brake s tick)) = sensors_name s
  /\ hazard (fst (update rt brake s tick)) = hazard s
  /\ fle f_zero (speed (fst (update rt brake s tick))) = true.
Proof.
  repeat split; try (destruct brake; reflexivity).
  rewrite update_speed. apply py_max0_nonneg.
Qed.

(** The world after [broadcast], seen from any vehicle [i]. *)
Lemma broadcast_frame (self : nat) (brake : bool) (w : World) :
  fst (broadcast rt self brake w) = Ok tt
  /\ identity_kept w (snd (broadcast rt self brake w))
  /\ (speeds_nonneg w -> speeds_nonneg (snd (broadcast rt self brake w)))
  /\ (forall i, i <> self -> cars (snd (broadcast rt self brake w)) i = cars w i)
  /\ length (q (channel (snd (broadcast rt self brake w)))) = S (length (q (channel w)))
  /\ stdout (snd (broadcast rt self brake w)) = stdout w.
Proof.
  rewrite broadcast_unfold. unfold identity_kept, speeds_nonneg.
  cbn [fst snd cars channel stdout transmit q].
  destruct (update_keeps brake (sensors (cars w self)) (draws w)) as (U1 & U2 & U3).
  split; [reflexivity | ].
  split; [ | split; [ | split; [ | split]]].
  - intros i. destruct (Nat.eq_dec i self) as [-> | Hi].
    + rewrite set_sensors_same. cbn [name receiver sensors]. repeat split; assumption.
    + rewrite set_sensors_other by exact Hi. repeat split.
  - intros Hw i. destruct (Nat.eq_dec i self) as [-> | Hi].
    + rewrite set_sensors_same. cbn [sensors]. exact U3.
    + rewrite set_sensors_other by exact Hi. apply Hw.
  - intros i Hi. apply set_sensors_other, Hi.
  - rewrite length_app. cbn [length]. lia.
  - reflexivity.
Qed.

(** The world after the dispatcher is the world before, possibly with a
    line printed, possibly followed by [emergency_brake]. *)
Lemma process_message_cases (r : VehicleReceiver) (msg : pydict) (w : World) :
  snd (process_message rt r msg w) = w
  \/ (exists l, snd (process_message rt r msg w) = logged l w)
  \/ (exists l, snd (process_message rt r msg w)
                = snd (emergency_brake rt (vehicle r) (logged l w))).
Proof.
  destruct (get_equals msg (codes "type") (codes "STATUS")) eqn:Hs.
  - pose proof (status_not_brake msg Hs) as Hb.
    unfold process_message, bind, lift, subscript, format_field, print.
    rewrite Hs, Hb.
    destruct (dict_get msg (codes "from")) as [sender | ]; [ | left; reflexivity].
    destruct (py_format rt sender) as [t1 | e1]; [ | left; reflexivity].
    destruct (dict_get msg (codes "speed_mps")) as [sp | ]; [ | left; reflexivity].
    destruct (py_format rt sp) as [t2 | e2]; [ | left; reflexivity].
    destruct (py_print rt (StatusLine (receiver_name r) sender sp)) as [[] | e3];
      [ | left; reflexivity].
    right. left. eexists. reflexivity.
  - destruct (get_equals msg (codes "type") (codes "EMERGENCY_BRAKE")) eqn:Hb.
    + unfold process_message, bind, lift, subscript, format_field, print.
      rewrite Hs, Hb. cbn [ret].
      destruct (dict_get msg (codes "from")) as [sender | ]; [ | left; reflexivity].
      destruct (py_format rt sender) as [t1 | e1]; [ | left; reflexivity].
      destruct (py_print rt (BrakeLine (receiver_name r) sender)) as [[] | e3];
        [ | left; reflexivity].
      right. right. eexists. reflexivity.
    + left. unfold process_message, bind. rewrite Hs, Hb. reflexivity.
Qed.

Lemma process_message_frame (r : VehicleReceiver) (msg : pydict) (w : World) :
  identity_kept w (snd (process_message rt r msg w))
  /\ (speeds_nonneg w -> speeds_nonneg (snd (process_message rt r msg w)))
  /\ (forall i, i <> vehicle r -> cars (snd (process_message rt r msg w)) i = cars w i)
  /\ length (q (channel (snd (process_message rt r msg w)))) <= S (length (q (channel w))).
Proof.
  destruct (process_message_cases r msg w) as [E | [[l E] | [l E]]]; rewrite E.
  - split; [apply identity_kept_refl | ]. repeat split; auto.
  - unfold identity_kept, speeds_nonneg, logged. cbn [cars channel].
    repeat split; auto.
  - unfold emergency_brake.
    destruct (broadcast_frame (vehicle r) true (logged l w))
      as (_ & F1 & F2 & F3 & F4 & _).
    unfold logged in *. cbn [cars channel] in *. split; [exact F1 | ].
    split; [exact F2 | ]. split; [exact F3 | ].
    rewrite F4. lia.
Qed.

(** One pass of a listener changes no vehicle but its own, keeps every
    vehicle's identity and every speed at or above zero, and never leaves
    more signals pending than it found: it takes one and puts back at most
    one.  On an empty channel it changes nothing at all. *)
Theorem listener_frame (r : VehicleReceiver) (w : World) :
  (forall i, i <> vehicle r -> cars (snd (listen_step rt r w)) i = cars w i)
  /\ identity_kept w (snd (listen_step rt r w))
  /\ (speeds_nonneg w -> speeds_nonneg (snd (listen_step rt r w)))
  /\ length (q (channel (snd (listen_step rt r w)))) <= length (q (channel w))
  /\ (q (channel w) = [] -> snd (listen_step rt r w) = w).
Proof.
  unfold listen_step, bind, channel_receive, receive.
  destruct (q (channel w)) as [ | s rest] eqn:Hq.
  - destruct w as [c [qq] d o]. cbn [channel q] in Hq. subst qq.
    unfold identity_kept, speeds_nonneg. cbn [ret snd cars channel q length].
    repeat split; auto.
  - assert (Hrest : forall w0 : World,
               cars w0 = cars w -> q (channel w0) = rest ->
               (forall i, i <> vehicle r -> cars w0 i = cars w i)
               /\ identity_kept w w0
               /\ (speeds_nonneg w -> speeds_nonneg w0)
               /\ length (q (channel w0)) <= length (s :: rest)
               /\ (s :: rest = [] -> w0 = w)).
    { intros w0 Hc Hq0. rewrite Hq0. unfold identity_kept, speeds_nonneg.
      rewrite Hc. repeat split; auto. cbn [length]. lia. discriminate. }
    destruct (truthy (decode_message s)); [ | apply Hrest; reflexivity].
    unfold try_except, bind, lift.
    destruct (literal_eval rt (decode_message s)) as [v | e];
      [ | apply Hrest; reflexivity].
    destruct v; try (apply Hrest; reflexivity).
    set (w0 := {| cars := cars w; channel := {| q := rest |};
                  draws := draws w; stdout := stdout w |}).
    destruct (process_message_frame r items w0) as (F1 & F2 & F3 & F4).
    assert (Hw : snd (match process_message rt r items w0 with
                      | (Ok a, w') => (Ok a, w')
                      | (Raise _, w') => ret tt w'
                      end) = snd (process_message rt r items w0)).
    { destruct (process_message rt r items w0) as [[a | e] w']; reflexivity. }
    rewrite Hw.
    split; [exact F3 | ]. split; [exact F1 | ]. split; [exact F2 | ].
    split; [cbn [length]; exact F4 | discriminate].
Qed.

Lemma step_frame (a : action) (w : World) :
  fst (step rt a w) = Ok tt
  /\ identity_kept w (snd (step rt a w))
  /\ (speeds_nonneg w -> speeds_nonneg (snd (step rt a w)))
  /\ (wired w -> forall i, i <> actor a -> cars (snd (step rt a w)) i = cars w i)
  /\ length (q (channel (snd (step rt a w))))
     <= length (q (channel w)) + drives [a].
Proof.
  destruct a as [self brake | self]; cbn [step actor drives].
  - destruct (broadcast_frame self brake w) as (F0 & F1 & F2 & F3 & F4 & _).
    split; [exact F0 | ]. split; [exact F1 | ]. split; [exact F2 | ].
    split; [intros _; exact F3 | lia].
  - pose proof (listen_step_ok rt (receiver (cars w self)) w) as F0.
    unfold listen_step, bind, channel_receive, receive in *.
    destruct (q (channel w)) as [ | s rest] eqn:Hq.
    + unfold identity_kept, speeds_nonneg. cbn [ret fst snd cars channel].
      rewrite Hq. cbn [length]. repeat split; auto.
    + set (w0 := {| cars := cars w; channel := {| q := rest |};
                    draws := draws w; stdout := stdout w |}) in *.
      assert (Hrest : identity_kept w w0
                      /\ (speeds_nonneg w -> speeds_nonneg w0)
                      /\ (wired w -> forall i, i <> self -> cars w0 i = cars w i)
                      /\ length (q (channel w0)) <= length (s :: rest) + 0).
      { unfold identity_kept, speeds_nonneg. cbn [w0 cars channel q length].
        repeat split; auto. lia. }
      split; [exact F0 | clear F0].
      destruct (truthy (decode_message s)); [ | exact Hrest].
      unfold try_except, bind, lift.
      destruct (literal_eval rt (decode_message s)) as [v | e]; [ | exact Hrest].
      destruct v; try exact Hrest.
      destruct (process_message_frame (receiver (cars w self)) items w0)
        as (F1 & F2 & F3 & F4).
      assert (Hw : snd (match process_message rt (receiver (cars w self)) items w0 with
                        | (Ok a, w') => (Ok a, w')
                        | (Raise _, w') => ret tt w'
                        end)
                   = snd (process_message rt (receiver (cars w self)) items w0)).
      { destruct (process_message rt (receiver (cars w self)) items w0)
          as [[a | e] w']; reflexivity. }
      rewrite Hw.
      split; [exact F1 | ]. split; [exact F2 | ].
      split.
      * intros Hwired i Hi. apply F3. rewrite Hwired. exact Hi.
      * cbn [w0 channel q length] in F4. cbn [length]. lia.
Qed.

Lemma wired_kept (w w' : World) : identity_kept w w' -> wired w -> wired w'.
Proof.
  intros Hk Hw i. destruct (Hk i) as (_ & R & _). rewrite R. apply Hw.
Qed.

Lemma drives_cons (a : action) (acts : list action) :
  drives (a :: acts) = drives [a] + drives acts.
Proof. destruct a; reflexivity. Qed.

Lemma run_schedule_frame (acts : list action) :
  forall w,
    fst (run_schedule rt acts w) = Ok tt
    /\ identity_kept w (snd (run_schedule rt acts w))
    /\ (speeds_nonneg w -> speeds_nonneg (snd (run_schedule rt acts w)))
    /\ (wired w -> forall i, (forall a, In a acts -> actor a <> i) ->
                             cars (snd (run_schedule rt acts w)) i = cars w i)
    /\ length (q (channel (snd (run_schedule rt acts w))))
       <= length (q (channel w)) + drives acts.
Proof.
  induction acts as [ | a acts IH]; intros w.
  - cbn [run_schedule ret fst snd drives].
    split; [reflexivity | ]. split; [apply identity_kept_refl | ].
    repeat split; auto. lia.
  - cbn [run_schedule]. unfold bind.
    destruct (step_frame a w) as (S0 & S1 & S2 & S3 & S4).
    destruct (step rt a w) as [res w1]. cbn [fst snd] in *. subst res.
    destruct (IH w1) as (I0 & I1 & I2 & I3 & I4).
    split; [exact I0 | ].
    split; [eapply identity_kept_trans; eassumption | ].
    split; [auto | ].
    split.
    + intros Hw i Hi. rewrite I3.
      * apply S3; [exact Hw | ]. intros E. apply (Hi a); [left; reflexivity | auto].
      * eapply wired_kept; eassumption.
      * intros a' Ha'. apply Hi. right. exact Ha'.
    + rewrite drives_cons. lia.
Qed.

(** Whatever the driver and the listener threads do, in any order: no
    call raises; no vehicle ever changes its name, receiver, sensors' name
    or hazard text; speeds that were at or above zero stay so; and the
    channel holds at most the signals it held plus one per [broadcast] of
    the driver, the listeners never adding to the total. *)
Theorem schedule_invariants (acts : list action) (w : World) :
  fst (run_schedule rt acts w) = Ok tt
  /\ identity_kept w (snd (run_schedule rt acts w))
  /\ (speeds_nonneg w -> speeds_nonneg (snd (run_schedule rt acts w)))
  /\ length (q (channel (snd (run_schedule rt acts w))))
     <= length (q (channel w)) + drives acts.
Proof.
  destruct (run_schedule_frame acts w) as (H0 & H1 & H2 & _ & H4).
  split; [exact H0 | ]. split; [exact H1 | ]. split; [exact H2 | exact H4].
Qed.

(** When every receiver refers to its own vehicle, a vehicle's state is
    changed only by that vehicle's own broadcasts and its own listener:
    a run in which no action is the vehicle's leaves it as it was. *)
Theorem own_state_only (acts : list action) (w : World) (i : nat) :
  wired w ->
  (forall a, In a acts -> actor a <> i) ->
  cars (snd (run_schedule rt acts w)) i = cars w i.
Proof.
  intros Hw Hi.
  destruct (run_schedule_frame acts w) as (_ & _ & _ & H3 & _).
  apply H3; assumption.
Qed.

End Frames.

Lemma own_state_only_witness :
  cars (snd (run_schedule test_rt [Drive 0 true; Hear 0; Drive 2 false] test_world)) 1
  = cars test_world 1.
Proof.
  apply (own_state_only test_rt [Drive 0 true; Hear 0; Drive 2 false] (w := test_world)).
  - intros i. reflexivity.
  - intros a [<- | [<- | [<- | []]]]; discriminate.
Defined.

(** ** From one vehicle's broadcast to another's reaction *)

Section EndToEnd.

Variable rt : Runtime.

(** A pass of the listener that finds a signal whose decoded text parses
    to a dict: the signal is taken and the dict dispatched, exceptions
    dropped. *)
Lemma listen_step_dispatch (r : VehicleReceiver) (w : World) (s : signal)
      (rest : list signal) (d : pydict) :
  q (channel w) = s :: rest ->
  truthy (decode_message s) = true ->
  literal_eval rt (decode_message s) = Ok (PyDict d) ->
  listen_step rt r w
  = try_except (process_message rt r d) (ret tt)
      {| cars := cars w; channel := {| q := rest |};
         draws := draws w; stdout := stdout w |}.
Proof.
  intros Hq Ht Hp.
  unfold listen_step, bind at 1, channel_receive, receive. rewrite Hq, Ht.
  unfold try_except, bind, lift. rewrite Hp. reflexivity.
Qed.

(** Vehicle [a] brakes hard on an idle channel; the samples classify to
    their bits, the text is printable and not empty,
    [ast.literal_eval] reads it back, and the listener's alert line with
    [a]'s name can be built and printed.  Then the next pass of any
    listener [r] takes the alert, prints it with [a]'s name, and its
    vehicle brakes: braking flag true, acceleration -8.0, and the channel
    now holds exactly one signal, the alert of [r]'s own vehicle. *)
Theorem alert_reaches_listener (a : nat) (r : VehicleReceiver) (w : World) :
  q (channel w) = [] ->
  forallb printable (py_str rt (PyDict (brake_msg (name (cars w a))))) = true ->
  truthy (py_str rt (PyDict (brake_msg (name (cars w a))))) = true ->
  signal_bits (fst (encode_message rt (PyDict (brake_msg (name (cars w a))))
                                   (S (draws w))))
  = message_bits (py_str rt (PyDict (brake_msg (name (cars w a))))) ->
  literal_eval rt (py_str rt (PyDict (brake_msg (name (cars w a)))))
  = Ok (PyDict (brake_msg (name (cars w a)))) ->
  succeeds (py_format rt (PyStr (name (cars w a)))) = true ->
  succeeds (py_print rt (BrakeLine (receiver_name r) (PyStr (name (cars w a))))) = true ->
  fst (listen_step rt r (snd (broadcast rt a true w))) = Ok tt
  /\ braking (sensors (cars (snd (listen_step rt r (snd (broadcast rt a true w))))
                            (vehicle r))) = true
  /\ accel (sensors (cars (snd (listen_step rt r (snd (broadcast rt a true w))))
                          (vehicle r))) = f_neg_8
  /\ q (channel (snd (listen_step rt r (snd (broadcast rt a true w)))))
     = [fst (encode_message rt (PyDict (brake_msg (name (cars w (vehicle r)))))
                            (S (draws (snd (broadcast rt a true w)))))]
  /\ stdout (snd (listen_step rt r (snd (broadcast rt a true w))))
     = stdout w ++ [BrakeLine (receiver_name r) (PyStr (name (cars w a)))].
Proof.
  intros Hq Hp Ht Hbits Hparse Hfmt Hpr.
  assert (Hdec : decode_message
                   (fst (encode_message rt (PyDict (brake_msg (name (cars w a))))
                                        (S (draws w))))
                 = py_str rt (PyDict (brake_msg (name (cars w a))))).
  { apply decode_bits_of_text; [apply printable_byte, Hp | exact Hbits]. }
  set (w1 := snd (broadcast rt a true w)).
  assert (Hq1 : q (channel w1)
                = [fst (encode_message rt (PyDict (brake_msg (name (cars w a))))
                                       (S (draws w)))]).
  { unfold w1. rewrite broadcast_unfold. cbn [snd channel transmit q update fst].
    rewrite Hq. reflexivity. }
  assert (Hout : stdout w1 = stdout w).
  { unfold w1. rewrite broadcast_unfold. reflexivity. }
  assert (Hname : name (cars w1 (vehicle r)) = name (cars w (vehicle r))).
  { unfold w1. rewrite broadcast_unfold. cbn [snd cars].
    unfold set_sensors. destruct (vehicle r =? a) eqn:E; [ | reflexivity].
    apply Nat.eqb_eq in E. rewrite E. reflexivity. }
  rewrite (listen_step_dispatch r w1 (d := brake_msg (name (cars w a))) Hq1)
    by (rewrite Hdec; assumption).
  unfold try_except.
  rewrite (process_message_brake rt r (brake_msg (name (cars w a)))
             (sender := PyStr (name (cars w a))))
    by (reflexivity || assumption).
  match goal with
  | |- context [emergency_brake rt (vehicle r) ?w0] =>
      destruct (emergency_brake_effect rt (vehicle r) w0) as (E1 & E2 & E3 & _ & E5 & _);
      pose proof (broadcast_frame rt (vehicle r) true w0) as (_ & _ & _ & _ & _ & E6);
      fold (emergency_brake rt (vehicle r)) in E6;
      destruct (emergency_brake rt (vehicle r) w0) as [res w2]
  end.
  unfold logged in *.
  cbn [fst snd cars channel q draws stdout app] in *. subst res.
  rewrite Hname in E5. rewrite Hout in E6.
  repeat split; assumption.
Qed.

(** Vehicle [a] makes a routine broadcast on an idle channel, under the
    same conditions on the samples, the text and the parser, and the
    listener's status line can be built and printed.  Then the next pass
    of any listener [r] takes the signal and prints one status line, with
    the name of [a]'s sensors and [a]'s new speed as [read_data] rounds it
    (the int 0 for a vehicle the clamp has stopped); no vehicle is changed
    by the pass and the channel is empty again. *)
Theorem status_reaches_listener (a : nat) (r : VehicleReceiver) (w : World) :
  q (channel w) = [] ->
  forallb printable
    (py_str rt (PyDict (fst (read_data rt
                               (fst (update rt false (sensors (cars w a)) (draws w)))
                               (S (draws w)))))) = true ->
  truthy
    (py_str rt (PyDict (fst (read_data rt
                               (fst (update rt false (sensors (cars w a)) (draws w)))
                               (S (draws w)))))) = true ->
  signal_bits
    (fst (encode_message rt
            (PyDict (fst (read_data rt
                            (fst (update rt false (sensors (cars w a)) (draws w)))
                            (S (draws w)))))
            (S (S (draws w)))))
  = message_bits
      (py_str rt (PyDict (fst (read_data rt
                                 (fst (update rt false (sensors (cars w a)) (draws w)))
                                 (S (draws w)))))) ->
  literal_eval rt
    (py_str rt (PyDict (fst (read_data rt
                               (fst (update rt false (sensors (cars w a)) (draws w)))
                               (S (draws w))))))
  = Ok (PyDict (fst (read_data rt
                       (fst (update rt false (sensors (cars w a)) (draws w)))
                       (S (draws w))))) ->
  succeeds (py_format rt (PyStr (sensors_name (sensors (cars w a))))) = true ->
  succeeds (py_format rt
              (round_speed rt
                 (speed (fst (update rt false (sensors (cars w a)) (draws w))))))
  = true ->
  succeeds (py_print rt
              (StatusLine (receiver_name r)
                 (PyStr (sensors_name (sensors (cars w a))))
                 (round_speed rt
                    (speed (fst (update rt false (sensors (cars w a)) (draws w)))))))
  = true ->
  fst (listen_step rt r (snd (broadcast rt a false w))) = Ok tt
  /\ cars (snd (listen_step rt r (snd (broadcast rt a false w))))
     = cars (snd (broadcast rt a false w))
  /\ q (channel (snd (listen_step rt r (snd (broadcast rt a false w))))) = []
  /\ stdout (snd (listen_step rt r (snd (broadcast rt a false w))))
     = stdout w
       ++ [StatusLine (receiver_name r)
             (PyStr (sensors_name (sensors (cars w a))))
             (round_speed rt
                (speed (sensors (cars (snd (broadcast rt a false w)) a))))].
Proof.
  intros Hq Hp Ht Hbits Hparse F1 F2 P.
  set (m := fst (read_data rt (fst (update rt false (sensors (cars w a)) (draws w)))
                           (S (draws w)))) in *.
  assert (Hdec : decode_message (fst (encode_message rt (PyDict m) (S (S (draws w)))))
                 = py_str rt (PyDict m)).
  { apply decode_bits_of_text; [apply printable_byte, Hp | exact Hbits]. }
  set (w1 := snd (broadcast rt a false w)).
  assert (Hw1 : q (channel w1) = [fst (encode_message rt (PyDict m) (S (S (draws w))))]
                /\ stdout w1 = stdout w
                /\ sensors (cars w1 a)
                   = fst (update rt false (sensors (cars w a)) (draws w))).
  { unfold w1. rewrite broadcast_unfold. cbn [snd channel transmit q stdout cars].
    rewrite Hq, set_sensors_same. repeat split. }
  destruct Hw1 as (Hq1 & Hout & Hs).
  rewrite (listen_step_dispatch r w1 (d := m) Hq1) by (rewrite Hdec; assumption).
  unfold try_except.
  rewrite (@status_message_logged rt r m
             (PyStr (sensors_name (sensors (cars w a))))
             (round_speed rt
                (speed (fst (update rt false (sensors (cars w a)) (draws w))))))
    by (reflexivity || assumption).
  unfold logged. cbn [fst snd cars channel q stdout]. rewrite Hout, Hs.
  repeat split.
Qed.

End EndToEnd.

Lemma alert_reaches_listener_witness :
  braking (sensors (cars (snd (listen_step test_rt (receiver (cars test_world 1))
                                           (snd (broadcast test_rt 0 true test_world))))
                         1)) = true.
Proof.
  destruct (alert_reaches_listener test_rt 0 (receiver (cars test_world 1)) test_world)
    as (_ & H & _).
  - reflexivity.
  - vm_compute. reflexivity.
  - vm_compute. reflexivity.
  - vm_compute. reflexivity.
  - vm_compute. reflexivity.
  - reflexivity.
  - reflexivity.
  - exact H.
Defined.

Lemma status_reaches_listener_witness :
  stdout (snd (listen_step convoy_rt (receiver (cars test_world 1))
                           (snd (broadcast convoy_rt 0 false test_world))))
  = [StatusLine (codes "CarB") (PyStr (codes "CarA"))
       (PyFloat (S754_finite false 7022800668930867 (-48)))].
Proof.
  destruct (@status_reaches_listener convoy_rt 0 (receiver (cars test_world 1))
              test_world) as (_ & _ & _ & H).
  - reflexivity.
  - vm_compute. reflexivity.
  - vm_compute. reflexivity.
  - vm_compute. reflexivity.
  - vm_compute. reflexivity.
  - reflexivity.
  - vm_compute. reflexivity.
  - vm_compute. reflexivity.
  - rewrite H. vm_compute. reflexivity.
Defined.

(** A stopped vehicle reports its speed as the int 0: the text of its
    STATUS message, as the numbers runtime writes it. *)
Example stopped_vehicle_status_text :
  py_str convoy_rt
    (PyDict (fst (read_data convoy_rt
                    (brake_n convoy_rt 32 (VehicleSensors_init (codes "CarA")) 0) 0)))
  = codes "{'from': 'CarA', 'timestamp': 0.0, 'speed_mps': 0, 'accel_mps2': -8.0, 'braking': True, 'hazard': '', 'type': 'STATUS'}".
Proof. vm_compute. reflexivity. Qed.

(** A moving vehicle's routine STATUS message, as the numbers runtime
    writes it and reads it back. *)
Example moving_vehicle_status_text :
  py_str convoy_rt
    (PyDict (fst (read_data convoy_rt
                    (fst (update convoy_rt false (VehicleSensors_init (codes "CarA")) 0))
                    1)))
  = codes "{'from': 'CarA', 'timestamp': 0.0, 'speed_mps': 24.95, 'accel_mps2': -0.5, 'braking': False, 'hazard': '', 'type': 'STATUS'}"
  /\ literal_eval convoy_rt
       (codes "{'from': 'CarA', 'timestamp': 0.0, 'speed_mps': 24.95, 'accel_mps2': -0.5, 'braking': False, 'hazard': '', 'type': 'STATUS'}")
     = Ok (PyDict (fst (read_data convoy_rt
                          (fst (update convoy_rt false
                                       (VehicleSensors_init (codes "CarA")) 0))
                          1))).
Proof. vm_compute. split; reflexivity. Qed.
